(** * Codex library back end: token gate, role guards and the mutations behind them

    A shallow embedding of the Django/Graphene sources
    ([account/tokens.py], [account/models.py], [account/views.py],
    [books/models.py], [books/views.py], [genre/views.py]).

    Tables are finite maps from primary key to row, a resolver is a
    computation over the store that either returns or raises, and the
    framework services the sources call (keyed hash, password hasher,
    base-36 codec, text of a datetime) are the fields of a class. *)

From stdpp Require Import gmap strings list fin_maps.
From Stdlib Require Import ZArith Ascii DecimalString.

Open Scope string_scope.
Open Scope Z_scope.

(** ** Python values and exceptions *)

Module Py.

(** The values a keyword argument or a model attribute holds in the
    modelled resolvers. *)
Inductive value : Type :=
  | PyNone
  | PyStr (s : string)
  | PyInt (z : Z).

#[global] Instance value_eq_dec : EqDecision value.
Proof. solve_decision. Defined.

(** Exception classes raised on the modelled paths; each carries the
    text [str(e)] yields. *)
Inductive exn : Type :=
  | GraphQLError (msg : string)
  | DoesNotExist (msg : string)
  | MultipleObjectsReturned (msg : string)
  | RelatedObjectDoesNotExist (msg : string)
  | Http404 (msg : string)
  | IntegrityError (msg : string)
  | ValueError (msg : string)
  | AttributeError (msg : string)
  | NameError (msg : string)
  | FieldError (msg : string).

#[global] Instance exn_eq_dec : EqDecision exn.
Proof. solve_decision. Defined.

Definition str (e : exn) : string :=
  match e with
  | GraphQLError m | DoesNotExist m | MultipleObjectsReturned m
  | RelatedObjectDoesNotExist m | Http404 m | IntegrityError m
  | ValueError m | AttributeError m | NameError m | FieldError m => m
  end.

(** Truth value of a [str | None] attribute: [None] and the empty string
    are falsy. *)
Definition truthy (o : option string) : bool :=
  match o with
  | Some s => negb (bool_decide (s = ""))
  | None => false
  end.

(** [**kwargs]: a mapping from keyword to value. *)
Definition kwargs_get (k : string) (kwargs : gmap string value) : value :=
  default PyNone (kwargs !! k).

Definition kwargs_has (k : string) (kwargs : gmap string value) : bool :=
  bool_decide (k ∈ dom kwargs).

End Py.
Import Py.

(** ** The framework services the sources call

    Django's keyed hash, password hasher, base-36 codec and settings, and
    Python's text of a datetime, are not part of the repository: the
    resolvers are modelled over any implementation of them. *)

Class Framework : Type := {
  (** [salted_hmac(key_salt, value, secret).hexdigest()[::2]] for the
      generator's fixed salt and the server secret. *)
  salted_hmac : string → string;
  (** [six.text_type] of a [datetime] given in microseconds since
      2001-01-01 00:00:00. *)
  text_type_datetime : Z → string;
  (** [django.utils.http.int_to_base36] and [base36_to_int] ([None] where
      the latter raises [ValueError]). *)
  int_to_base36 : Z → string;
  base36_to_int : string → option Z;
  (** [settings.PASSWORD_RESET_TIMEOUT], in seconds. *)
  PASSWORD_RESET_TIMEOUT : Z;
  (** [make_password(raw)] and [check_password(raw, encoded)] of
      [django.contrib.auth.hashers]. *)
  make_password : option string → string;
  check_password : string → string → bool;
  (** [BaseUserManager.normalize_email]. *)
  normalize_email : string → string
}.

(** ** Model rows *)

(** account/models.py: a [CustomUser] row without its primary key. *)
Module AccountModels.

Record CustomUser : Type := mkCustomUser {
  password : string;
  email : string;
  username : string;
  first_name : string;
  last_name : string;
  is_active : bool;
  is_admin : bool;
  is_patron : bool;
  is_author : bool;
  token : option string;
  role : string
}.

#[global] Instance CustomUser_eq_dec : EqDecision CustomUser.
Proof. solve_decision. Defined.

Definition set_token (t : option string) (u : CustomUser) : CustomUser :=
  {| password := password u; email := email u; username := username u;
     first_name := first_name u; last_name := last_name u;
     is_active := is_active u; is_admin := is_admin u;
     is_patron := is_patron u; is_author := is_author u;
     token := t; role := role u |}.

Definition set_password (p : string) (u : CustomUser) : CustomUser :=
  {| password := p; email := email u; username := username u;
     first_name := first_name u; last_name := last_name u;
     is_active := is_active u; is_admin := is_admin u;
     is_patron := is_patron u; is_author := is_author u;
     token := token u; role := role u |}.

Definition set_email (e : string) (u : CustomUser) : CustomUser :=
  {| password := password u; email := e; username := username u;
     first_name := first_name u; last_name := last_name u;
     is_active := is_active u; is_admin := is_admin u;
     is_patron := is_patron u; is_author := is_author u;
     token := token u; role := role u |}.

Definition set_roles (admin patron author : bool) (u : CustomUser) : CustomUser :=
  {| password := password u; email := email u; username := username u;
     first_name := first_name u; last_name := last_name u;
     is_active := is_active u; is_admin := admin;
     is_patron := patron; is_author := author;
     token := token u; role := role u |}.

(** The field defaults of the model: [is_active=True], the three role
    flags [False], [token=None], [role='L']. *)
Definition model
    (password email username first_name last_name : string) : CustomUser :=
  {| password := password; email := email; username := username;
     first_name := first_name; last_name := last_name;
     is_active := true; is_admin := false; is_patron := false;
     is_author := false; token := None; role := "L" |}.

(** An [AuthorUser] row; [user] is the primary key of the one-to-one
    related [CustomUser]. *)
Record AuthorUser : Type := mkAuthorUser {
  user : Z;
  birthdate : string;
  nationality : string
}.

End AccountModels.

(** genre/models.py *)
Module GenreModels.

Record Genre : Type := mkGenre {
  name : string;
  description : string
}.

#[global] Instance Genre_eq_dec : EqDecision Genre.
Proof. solve_decision. Defined.

End GenreModels.

(** books/models.py *)
Module BooksModels.

(** A [Book] row without its primary key [bookid]; the two many-to-many
    relations are the sets of related primary keys. *)
Record Book : Type := mkBook {
  title : value;
  isbn : value;
  description : value;
  author : gset string;
  genres : gset string;
  rating : value;
  publishyear : value;
  avaliablecopies : value;
  noofreviews : value;
  bookpages : value
}.

Definition set_author (a : gset string) (b : Book) : Book :=
  {| title := title b; isbn := isbn b; description := description b;
     author := a; genres := genres b; rating := rating b;
     publishyear := publishyear b; avaliablecopies := avaliablecopies b;
     noofreviews := noofreviews b; bookpages := bookpages b |}.

Definition set_genres (g : gset string) (b : Book) : Book :=
  {| title := title b; isbn := isbn b; description := description b;
     author := author b; genres := g; rating := rating b;
     publishyear := publishyear b; avaliablecopies := avaliablecopies b;
     noofreviews := noofreviews b; bookpages := bookpages b |}.

(** [Book.edit_book(self, **kwargs)], assignment by assignment. The title
    line tests the key [title] and reads the key [title`]. *)
Definition edit_book (self : Book) (kwargs : gmap string value) : Book :=
  let isbn' :=
    if kwargs_has "isbn" kwargs then kwargs_get "isbn" kwargs else isbn self in
  let title' :=
    if kwargs_has "title" kwargs then kwargs_get "title`" kwargs else title self in
  let rating' :=
    if kwargs_has "rating" kwargs then kwargs_get "rating" kwargs else rating self in
  let bookpages' :=
    if kwargs_has "bookpages" kwargs
    then kwargs_get "bookpages" kwargs else bookpages self in
  let description' :=
    if kwargs_has "description" kwargs
    then kwargs_get "description" kwargs else description self in
  let publishyear' :=
    if kwargs_has "publishyear" kwargs
    then kwargs_get "publishyear" kwargs else publishyear self in
  let noofreviews' :=
    if kwargs_has "noofreviews" kwargs
    then kwargs_get "noofreviews" kwargs else noofreviews self in
  let avaliablecopies' :=
    if kwargs_has "avaliablecopies" kwargs
    then kwargs_get "avaliablecopies" kwargs else avaliablecopies self in
  {| title := title'; isbn := isbn'; description := description';
     author := author self; genres := genres self;
     rating := rating'; publishyear := publishyear';
     avaliablecopies := avaliablecopies'; noofreviews := noofreviews';
     bookpages := bookpages' |}.

(** The attribute a keyword of [edit_book] stands for. *)
Definition attribute (k : string) (b : Book) : option value :=
  if bool_decide (k = "isbn") then Some (isbn b)
  else if bool_decide (k = "title") then Some (title b)
  else if bool_decide (k = "rating") then Some (rating b)
  else if bool_decide (k = "bookpages") then Some (bookpages b)
  else if bool_decide (k = "description") then Some (description b)
  else if bool_decide (k = "publishyear") then Some (publishyear b)
  else if bool_decide (k = "noofreviews") then Some (noofreviews b)
  else if bool_decide (k = "avaliablecopies") then Some (avaliablecopies b)
  else None.

End BooksModels.

(** ** The store and the resolver monad *)

Import AccountModels.

(** One table per model, keyed by primary key, and the session of the
    request being served ([None]: anonymous). *)
Record Store : Type := mkStore {
  CustomUser_objects : gmap Z CustomUser;
  AuthorUser_objects : gmap string AuthorUser;
  Genre_objects : gmap string GenreModels.Genre;
  Book_objects : gmap string BooksModels.Book;
  session : option Z
}.

Definition set_CustomUser_objects (t : gmap Z CustomUser) (s : Store) : Store :=
  {| CustomUser_objects := t; AuthorUser_objects := AuthorUser_objects s;
     Genre_objects := Genre_objects s; Book_objects := Book_objects s;
     session := session s |}.

Definition set_Genre_objects (t : gmap string GenreModels.Genre) (s : Store) : Store :=
  {| CustomUser_objects := CustomUser_objects s;
     AuthorUser_objects := AuthorUser_objects s;
     Genre_objects := t; Book_objects := Book_objects s;
     session := session s |}.

Definition set_Book_objects (t : gmap string BooksModels.Book) (s : Store) : Store :=
  {| CustomUser_objects := CustomUser_objects s;
     AuthorUser_objects := AuthorUser_objects s;
     Genre_objects := Genre_objects s; Book_objects := t;
     session := session s |}.

Definition set_session (k : option Z) (s : Store) : Store :=
  {| CustomUser_objects := CustomUser_objects s;
     AuthorUser_objects := AuthorUser_objects s;
     Genre_objects := Genre_objects s; Book_objects := Book_objects s;
     session := k |}.

(** How a call ends: with a value, or with a raised exception. *)
Inductive outcome (A : Type) : Type :=
  | Return (a : A)
  | Raise (e : exn).
Arguments Return {A} a.
Arguments Raise {A} e.

(** A resolver: every write is committed as it is made, so the store a
    raising call leaves behind is the store at the [raise]. *)
Definition M (A : Type) : Type := Store → outcome A * Store.

#[global] Instance M_ret : MRet M := λ A a st, (Return a, st).

#[global] Instance M_bind : MBind M := λ A B f m st,
  match m st with
  | (Return a, st') => f a st'
  | (Raise e, st') => (Raise e, st')
  end.

Definition raise {A : Type} (e : exn) : M A := λ st, (Raise e, st).

Definition gets {A : Type} (f : Store → A) : M A := λ st, (Return (f st), st).

Definition modify (f : Store → Store) : M unit := λ st, (Return tt, f st).

(** [try: m except Exception as e: h e] *)
Definition try_except {A : Type} (m : M A) (h : exn → M A) : M A := λ st,
  match m st with
  | (Raise e, st') => h e st'
  | r => r
  end.

(** [try: m except Model.DoesNotExist: h]; any other exception passes. *)
Definition try_except_DoesNotExist {A : Type} (m : M A) (h : M A) : M A :=
  try_except m (λ e, match e with DoesNotExist _ => h | _ => raise e end).

(** What a resolver hands back to the GraphQL layer: the mutation's
    payload, or an error object it built and returned instead of raising. *)
Inductive resolved : Type :=
  | Payload
  | ErrorValue (e : exn).

(** [try: m except Exception as e: return GraphQLError(str(e))] *)
Definition try_return_error (m : M resolved) : M resolved :=
  try_except m (λ e, mret (ErrorValue (GraphQLError (str e)))).

(** [request.META]: the one header the resolvers read. *)
Record HttpRequest : Type := mkRequest {
  HTTP_AUTHORIZATION : option string
}.

(** ** The object-relational layer, as far as the resolvers use it *)

Module ORM.

(** The count in the text of [MultipleObjectsReturned]. *)
Definition returned_count (n : nat) : string :=
  if (n <? 21)%nat then NilZero.string_of_uint (Nat.to_uint n) else "more than 20".

(** [Model.objects.get(field=...)]: the one row that satisfies the
    lookup; [DoesNotExist] for none, [MultipleObjectsReturned] for several. *)
Definition objects_get {K A : Type} `{Countable K}
    (model_name : string) (P : A → Prop) `{!∀ a, Decision (P a)}
    (table : gmap K A) : outcome (K * A) :=
  match map_to_list (filter (λ row : K * A, P row.2) table) with
  | [] => Raise (DoesNotExist (model_name +:+ " matching query does not exist."))
  | [obj] => Return obj
  | found =>
      Raise (MultipleObjectsReturned
               ("get() returned more than one " +:+ model_name +:+
                " -- it returned " +:+ returned_count (length found) +:+ "!"))
  end.

(** [Model.objects.get(pk=...)]. Keys are opaque texts here: [pk] stands
    for the text of a well-formed key. What the key field does with a
    text it cannot parse (it raises its own validation error before any
    query is made) is not described by this function. *)
Definition objects_get_pk {A : Type}
    (model_name : string) (pk : string) (table : gmap string A)
    : outcome (string * A) :=
  match table !! pk with
  | Some row => Return (pk, row)
  | None => Raise (DoesNotExist (model_name +:+ " matching query does not exist."))
  end.

(** [get_object_or_404(Model, pk=...)], for the text of a well-formed key
    as in [objects_get_pk]. *)
Definition get_object_or_404 {A : Type}
    (model_name : string) (pk : string) (table : gmap string A)
    : outcome (string * A) :=
  match table !! pk with
  | Some row => Return (pk, row)
  | None => Raise (Http404 ("No " +:+ model_name +:+ " matches the given query."))
  end.

(** Lift a query on the current store into a resolver. *)
Definition query {A : Type} (q : Store → outcome A) : M A := λ st, (q st, st).

(** [user.save()] on a loaded instance: the row with that primary key is
    overwritten. *)
Definition CustomUser_save (user : Z * CustomUser) : M unit :=
  modify (λ st, set_CustomUser_objects (<[user.1 := user.2]> (CustomUser_objects st)) st).

(** A new [CustomUser] row: the database hands out an unused primary key
    and refuses a second row with the same [email] or [username]. *)
Definition CustomUser_insert (row : CustomUser) : M (Z * CustomUser) := λ st,
  let table := CustomUser_objects st in
  if bool_decide (map_Exists (λ _ u, email u = email row) table) then
    (Raise (IntegrityError "UNIQUE constraint failed: account_customuser.email"), st)
  else if bool_decide (map_Exists (λ _ u, username u = username row) table) then
    (Raise (IntegrityError "UNIQUE constraint failed: account_customuser.username"), st)
  else
    let pk := fresh (dom table) in
    (Return (pk, row), set_CustomUser_objects (<[pk := row]> table) st).

(** [user.authoruser]: the reverse side of the one-to-one field. *)
Definition authoruser (user : Z * CustomUser) : M (string * AuthorUser) :=
  query (λ st,
    match map_to_list (filter (λ row : string * AuthorUser, AccountModels.user row.2 = user.1)
                              (AuthorUser_objects st)) with
    | [] => Raise (RelatedObjectDoesNotExist "CustomUser has no authoruser.")
    | [obj] => Return obj
    | found =>
        Raise (MultipleObjectsReturned
                 ("get() returned more than one AuthorUser -- it returned " +:+
                  returned_count (length found) +:+ "!"))
    end).

(** [authoruser.book_set.all()]: the books whose [author] relation holds
    this author. *)
Definition book_set (author : string * AuthorUser) (st : Store)
    : gmap string BooksModels.Book :=
  filter (λ row : string * BooksModels.Book, author.1 ∈ BooksModels.author row.2)
         (Book_objects st).

(** [book in queryset]: membership by primary key. *)
Definition in_queryset {A : Type} (obj : string * A) (qs : gmap string A) : bool :=
  bool_decide (is_Some (qs !! obj.1)).

(** [book.delete()] *)
Definition Book_delete (book : string * BooksModels.Book) : M unit :=
  modify (λ st, set_Book_objects (delete book.1 (Book_objects st)) st).

(** [book.save()] *)
Definition Book_save (book : string * BooksModels.Book) : M unit :=
  modify (λ st, set_Book_objects (<[book.1 := book.2]> (Book_objects st)) st).

(** [genre.save()] *)
Definition Genre_save (genre : string * GenreModels.Genre) : M unit :=
  modify (λ st, set_Genre_objects (<[genre.1 := genre.2]> (Genre_objects st)) st).

(** [Genre.objects.create(name=..., description=...)]: [genreid] is the
    [uuid4] drawn for the new row; a primary key already in the table is
    refused. *)
Definition Genre_objects_create (genreid : string) (name description : string)
    : M (string * GenreModels.Genre) := λ st,
  match Genre_objects st !! genreid with
  | Some _ =>
      (Raise (IntegrityError "UNIQUE constraint failed: genre_genre.genreid"), st)
  | None =>
      let row := GenreModels.mkGenre name description in
      (Return (genreid, row), set_Genre_objects (<[genreid := row]> (Genre_objects st)) st)
  end.

(** [genre.delete()]: the row goes, and with it its rows in the
    book-genre relation. *)
Definition Genre_delete (genre : string * GenreModels.Genre) : M unit :=
  modify (λ st,
    set_Genre_objects (delete genre.1 (Genre_objects st))
      (set_Book_objects
         ((λ b, BooksModels.set_genres (BooksModels.genres b ∖ {[genre.1]}) b)
            <$> Book_objects st) st)).

End ORM.

(** ** The framework's token generator *)

Module PasswordResetTokenGenerator.

(** [s.split(sep)] for a one-character separator: one part more than
    there are separators. *)
Fixpoint split (sep : ascii) (s : string) : list string :=
  match s with
  | EmptyString => [EmptyString]
  | String c rest =>
      if bool_decide (c = sep) then EmptyString :: split sep rest
      else match split sep rest with
           | part :: parts => String c part :: parts
           | [] => [String c EmptyString]
           end
  end.

(** Occurrences of a character in a string. *)
Fixpoint count (sep : ascii) (s : string) : nat :=
  match s with
  | EmptyString => 0%nat
  | String c rest => ((if bool_decide (c = sep) then 1 else 0) + count sep rest)%nat
  end.

Section Methods.
Context `{Framework}.

(** The method a subclass overrides: the text that is hashed for a user
    and a timestamp, computed at clock reading [now]. *)
Variable _make_hash_value : Z → Z * CustomUser → Z → string.

(** Modelled from the spec: [_num_seconds] is a method of the framework's
    [PasswordResetTokenGenerator], which the repository's generator
    inherits and whose body is not in its sources: the whole seconds of a
    clock reading, the clock counting microseconds since 2001-01-01. *)
Definition _num_seconds (now : Z) : Z := now `quot` 1000000.

(** Modelled from the spec: [_make_token_with_timestamp], inherited from
    the framework as well. Sections 4.1 and 6: a token is the base-36
    timestamp and the keyed hash of [_make_hash_value], joined by the
    delimiter. *)
Definition _make_token_with_timestamp
    (now : Z) (user : Z * CustomUser) (timestamp : Z) : string :=
  int_to_base36 timestamp +:+ "-" +:+ salted_hmac (_make_hash_value now user timestamp).

(** Modelled from the spec: [make_token], inherited from the framework:
    the token for the current whole second (section 4.1). *)
Definition make_token (now : Z) (user : Z * CustomUser) : string :=
  _make_token_with_timestamp now user (_num_seconds now).

(** Modelled from the spec: [check_token], inherited from the framework.
    Section 4.1: it splits the token into its timestamp and hash parts,
    rebuilds the token for the parsed timestamp with [_make_hash_value]
    and compares; a wrong number of parts, an unparseable timestamp or a
    mismatch yields false. As in the framework, a token older than
    [PASSWORD_RESET_TIMEOUT] is refused as well. *)
Definition check_token (now : Z) (user : Z * CustomUser) (token : string) : bool :=
  if bool_decide (token = "") then false
  else match split "-" token with
       | [ts_b36; _] =>
           match base36_to_int ts_b36 with
           | Some ts =>
               if bool_decide (_make_token_with_timestamp now user ts = token)
               then negb (Z.ltb PASSWORD_RESET_TIMEOUT (_num_seconds now - ts))
               else false
           | None => false
           end
       | _ => false
       end.

End Methods.

End PasswordResetTokenGenerator.

(** ** account/tokens.py *)

Module Tokens.

Definition text_type_int (z : Z) : string := NilZero.string_of_int (Z.to_int z).

Definition text_type_bool (b : bool) : string := if b then "True" else "False".

(** [timedelta(seconds=n)], in microseconds. *)
Definition timedelta_seconds (n : Z) : Z := n * 1000000.

(** What [verify_header] and the login mutation ask of the module's
    [token_generator] object: its two public methods, each run at a clock
    reading. *)
Class TokenGenerator : Type := {
  make_token : Z → Z * CustomUser → string;
  check_token : Z → Z * CustomUser → string → bool
}.

Section Generator.
Context `{Framework}.

(** [ExpiringTokenGenerator._make_hash_value(self, user, timestamp)]. The
    parameter [timestamp] is overwritten on the first line by the clock
    reading [now] plus ten seconds. *)
Definition _make_hash_value (now : Z) (user : Z * CustomUser) (timestamp : Z) : string :=
  let timestamp := now + timedelta_seconds 10 in
  text_type_int user.1 +:+ text_type_datetime timestamp +:+
  text_type_bool (is_active user.2).

(** [class ExpiringTokenGenerator(PasswordResetTokenGenerator)]: the
    inherited methods over the overridden [_make_hash_value]. *)
Definition ExpiringTokenGenerator : TokenGenerator :=
  {| make_token := PasswordResetTokenGenerator.make_token _make_hash_value;
     check_token := PasswordResetTokenGenerator.check_token _make_hash_value |}.

(** [token_generator = ExpiringTokenGenerator()] *)
Definition token_generator : TokenGenerator := ExpiringTokenGenerator.

End Generator.

Section Gate.
Context `{TokenGenerator}.

(** [logout(request)] *)
Definition logout : M unit := modify (set_session None).

(** [login(request, user)] *)
Definition login (user : Z * CustomUser) : M unit := modify (set_session (Some user.1)).

(** The three failures of the gate, by their messages. *)
Definition Unauthenticated : exn := GraphQLError "User has not Login".
Definition InvalidToken : exn := GraphQLError "Authorization Token is Invalid".
Definition TokenExpired : exn := GraphQLError "Token has Expired".

(** [verify_header(request)], served at clock reading [now]. *)
Definition verify_header (now : Z) (request : HttpRequest) : M (Z * CustomUser) :=
  let token := HTTP_AUTHORIZATION request in
  if truthy token then
    let token := default "" token in
    user ← try_except_DoesNotExist
              (ORM.query (λ st, ORM.objects_get "CustomUser"
                                  (λ u, AccountModels.token u = Some token)
                                  (CustomUser_objects st)))
              (raise (GraphQLError "Authorization Token is Invalid"));
    if check_token now user token then
      mret user
    else
      logout;;
      ORM.CustomUser_save (user.1, set_token None user.2);;
      raise (GraphQLError "Token has Expired")
  else
    raise (GraphQLError "User has not Login").

End Gate.

End Tokens.

(** Unfolds the monad and the store writes of a resolver. *)
Ltac run_resolver :=
  unfold mbind, M_bind, mret, M_ret, try_except, try_return_error, raise, gets,
    modify, ORM.query, ORM.CustomUser_save, ORM.Genre_save, ORM.Book_save,
    ORM.Book_delete, ORM.Genre_delete, Tokens.login, Tokens.logout; cbn.

(** ** account/models.py (manager) and account/views.py *)

Module AccountViews.
Import Tokens.

Section Resolvers.
Context `{Framework} `{TokenGenerator}.

(** [CustomUserManager.create_user(email, password, **kwargs)]; [kwargs]
    is the instance [self.model] builds from the remaining keywords. *)
Definition create_user (email : string) (password : option string)
    (kwargs : CustomUser) : M (Z * CustomUser) :=
  if bool_decide (email = "") then raise (ValueError "Email must be set")
  else
    let email := normalize_email email in
    let user := set_email email kwargs in
    let user := set_password (make_password password) user in
    ORM.CustomUser_insert user.

(** [LoginMutation.mutate(self, info, email, password)] at clock reading
    [now]. A model instance is always truthy, so the outer [if] only binds
    [user]; [get] raises when no row has the email. *)
Definition LoginMutation_mutate (now : Z) (info : HttpRequest)
    (email password : string) : M unit :=
  user ← ORM.query (λ st, ORM.objects_get "CustomUser"
                            (λ u, AccountModels.email u = email)
                            (CustomUser_objects st));
  if check_password password (AccountModels.password user.2) then
    let user :=
      if negb (truthy (token user.2))
      then (user.1, set_token (Some (make_token now user)) user.2)
      else user in
    ORM.CustomUser_save user;;
    login user;;
    mret tt
  else
    raise (GraphQLError "Invalid credentials. Please try again.").

(** [SignUpMutation.mutate]: the row is built by [CustomUser.objects.create]
    from the arguments as they arrive. *)
Definition SignUpMutation_mutate (info : HttpRequest)
    (email username first_name last_name password confirm_password : string)
    : M unit :=
  if bool_decide (password = confirm_password) then
    try_except
      (new_user ← ORM.CustomUser_insert
                    (model password email username first_name last_name);
       mret tt)
      (λ e, raise (GraphQLError (str e)))
  else
    raise (GraphQLError "Password does not match").

(** [LogOutMutation.mutate] *)
Definition LogOutMutation_mutate (now : Z) (info : HttpRequest) : M unit :=
  try_except
    (user ← verify_header now info;
     ORM.CustomUser_save (user.1, set_token None user.2);;
     logout;;
     mret tt)
    (λ e, raise (GraphQLError (str e))).

End Resolvers.

End AccountViews.

(** ** genre/views.py *)

Module GenreViews.
Import Tokens.

Section Resolvers.
Context `{TokenGenerator}.

(** [CreateGenreMutation.mutate]; [genreid] is the key [uuid4] draws for
    the new row. *)
Definition CreateGenreMutation_mutate (now : Z) (info : HttpRequest)
    (name description : string) (genreid : string) : M unit :=
  try_except
    (user ← verify_header now info;
     new_genre ← ORM.Genre_objects_create genreid name description;
     mret tt)
    (λ e, raise (GraphQLError (str e))).

(** [EditGenreMutation.mutate]; [None] stands for an argument passed as
    null. *)
Definition EditGenreMutation_mutate (now : Z) (info : HttpRequest)
    (name description : option string) (genreid : string)
    : M (string * GenreModels.Genre) :=
  try_except
    (user ← verify_header now info;
     oldgenre ← ORM.query (λ st, ORM.objects_get_pk "Genre" genreid (Genre_objects st));
     let name' := default (GenreModels.name oldgenre.2) name in
     let description' := default (GenreModels.description oldgenre.2) description in
     let oldgenre := (oldgenre.1, GenreModels.mkGenre name' description') in
     ORM.Genre_save oldgenre;;
     mret oldgenre)
    (λ e, raise (GraphQLError (str e))).

(** [DeleteGenreMutation.mutate] *)
Definition DeleteGenreMutation_mutate (now : Z) (info : HttpRequest)
    (genreid : string) : M unit :=
  try_except
    (user ← verify_header now info;
     oldgenre ← ORM.query (λ st, ORM.objects_get_pk "Genre" genreid (Genre_objects st));
     ORM.Genre_delete oldgenre;;
     mret tt)
    (λ e, raise (GraphQLError (str e))).

End Resolvers.

End GenreViews.

(** ** books/views.py *)

Module BooksViews.
Import Tokens.

(** A name that no enclosing scope of the function binds. *)
Definition unbound_name {A : Type} (name : string) : M A :=
  raise (NameError ("name '" +:+ name +:+ "' is not defined")).

(** An attribute the instance does not have. *)
Definition no_attribute {A : Type} (class attr : string) : M A :=
  raise (AttributeError
           ("'" +:+ class +:+ "' object has no attribute '" +:+ attr +:+ "'")).

(** A lookup keyword that names no field of the model (the framework's
    message goes on to list the fields there are). *)
Definition unknown_lookup {A : Type} (keyword : string) : M A :=
  raise (FieldError ("Cannot resolve keyword '" +:+ keyword +:+ "' into field.")).

(** The dictionary [all_query] that [EditBookMutation.mutate] builds from
    its eight arguments. *)
Definition all_query
    (title isbn description noofreviews avaliablecopies rating publishyear
     bookpages : value) : gmap string value :=
  list_to_map
    [("title", title); ("isbn", isbn); ("description", description);
     ("noofreviews", noofreviews); ("avaliablecopies", avaliablecopies);
     ("rating", rating); ("publishyear", publishyear);
     ("bookpages", bookpages)].

(** What a resolver finds in [self]. The GraphQL layer calls [mutate] as
    a plain function and passes the root value of the operation, [None],
    in the place of [self]; a call on an instance of the mutation class
    binds that instance. *)
Inductive receiver : Type :=
  | RootValue
  | MutationObject.

Section Resolvers.
Context `{TokenGenerator}.

(** [AddToBook.mutate(self, info)]; the value is what it leaves in
    [self.book]. The method has no parameter [bookid] and the module no
    global of that name. *)
Definition AddToBook_mutate (now : Z) (info : HttpRequest)
    : M (string * BooksModels.Book) :=
  try_except
    (user ← verify_header now info;
     if negb (is_author user.2) then raise (GraphQLError "User is not an author")
     else
       bookid ← unbound_name "bookid";
       book ← ORM.query (λ st, ORM.objects_get_pk "Book" bookid (Book_objects st));
       authoruser ← ORM.authoruser user;
       book_set ← gets (ORM.book_set authoruser);
       if negb (ORM.in_queryset book book_set)
       then raise (GraphQLError "User not an author of Book")
       else mret book)
    (λ e, raise (GraphQLError (str e))).

(** [EditBookMutation.mutate]. [AuthorUser] has the reverse accessor
    [book_set] and no attribute [book]. *)
Definition EditBookMutation_mutate (now : Z) (info : HttpRequest)
    (bookid : string)
    (noofreviews bookpages rating publishyear avaliablecopies title isbn
     description : value) : M unit :=
  try_except
    (user ← verify_header now info;
     if negb (is_author user.2) then raise (GraphQLError "User is not an author")
     else
       book ← ORM.query (λ st, ORM.get_object_or_404 "Book" bookid (Book_objects st));
       authoruser ← ORM.authoruser user;
       authored ← no_attribute "AuthorUser" "book";
       if negb (ORM.in_queryset book authored)
       then raise (GraphQLError "User not the author of Book")
       else
         let all_query :=
           all_query title isbn description noofreviews avaliablecopies
                     rating publishyear bookpages in
         ORM.Book_save (book.1, BooksModels.edit_book book.2 all_query);;
         mret tt)
    (λ e, raise (GraphQLError (str e))).

(** [DeleteBookMutation.mutate]. The ownership test raises when the book
    IS in the caller's [book_set]. *)
Definition DeleteBookMutation_mutate (now : Z) (info : HttpRequest)
    (bookid : string) : M unit :=
  try_except
    (user ← verify_header now info;
     book ← ORM.query (λ st, ORM.get_object_or_404 "Book" bookid (Book_objects st));
     if negb (is_author user.2) then raise (GraphQLError "User is not an author")
     else
       authoruser ← ORM.authoruser user;
       book_set ← gets (ORM.book_set authoruser);
       if ORM.in_queryset book book_set
       then raise (GraphQLError "User not the author of Book")
       else
         ORM.Book_delete book;;
         mret tt)
    (λ e, raise (GraphQLError (str e))).

(** [super().mutate(info)] in a subclass of [AddToBook]. With [None] in
    the place of [self] the zero-argument [super()] is unbound, and an
    unbound [super] object has no attribute [mutate]; with an instance it
    is [AddToBook.mutate]. *)
Definition super_mutate (self : receiver) (now : Z) (info : HttpRequest)
    : M (string * BooksModels.Book) :=
  match self with
  | RootValue => no_attribute "super" "mutate"
  | MutationObject => AddToBook_mutate now info
  end.

(** [AddAuthorToBookMutation.mutate]; the lookup keyword [authorid] is not
    a field of [AuthorUser] (the field is [author_id]). *)
Definition AddAuthorToBookMutation_mutate (self : receiver) (now : Z)
    (info : HttpRequest) (bookid authorid : string) : M resolved :=
  try_return_error
    (book ← super_mutate self now info;
     author ← unknown_lookup (A := string * AuthorUser) "authorid";
     (if negb (bool_decide (author.1 ∈ BooksModels.author book.2))
      then ORM.Book_save
             (book.1, BooksModels.set_author ({[author.1]} ∪ BooksModels.author book.2) book.2)
      else mret tt);;
     mret Payload).

(** [AddGenreToBookMutation.mutate]; [Genre] is imported inside
    [CreateBookMutation.mutate] only. *)
Definition AddGenreToBookMutation_mutate (self : receiver) (now : Z)
    (info : HttpRequest) (bookid genreid : string) : M resolved :=
  try_return_error
    (book ← super_mutate self now info;
     genre ← unbound_name (A := string * GenreModels.Genre) "Genre";
     (if negb (bool_decide (genre.1 ∈ BooksModels.genres book.2))
      then ORM.Book_save
             (book.1, BooksModels.set_genres ({[genre.1]} ∪ BooksModels.genres book.2) book.2)
      else mret tt);;
     mret Payload).

(** [RemoveAuthorFromBookMutation.mutate] *)
Definition RemoveAuthorFromBookMutation_mutate (self : receiver) (now : Z)
    (info : HttpRequest) (bookid authorid : string) : M resolved :=
  try_return_error
    (book ← super_mutate self now info;
     author ← unknown_lookup (A := string * AuthorUser) "authorid";
     (if bool_decide (author.1 ∈ BooksModels.author book.2)
      then ORM.Book_save
             (book.1, BooksModels.set_author (BooksModels.author book.2 ∖ {[author.1]}) book.2)
      else mret tt);;
     mret Payload).

(** [RemoveGenreFromBookMutation.mutate] *)
Definition RemoveGenreFromBookMutation_mutate (self : receiver) (now : Z)
    (info : HttpRequest) (bookid genreid : string) : M resolved :=
  try_return_error
    (book ← super_mutate self now info;
     genre ← unbound_name (A := string * GenreModels.Genre) "Genre";
     (if bool_decide (genre.1 ∈ BooksModels.genres book.2)
      then ORM.Book_save
             (book.1, BooksModels.set_genres (BooksModels.genres book.2 ∖ {[genre.1]}) book.2)
      else mret tt);;
     mret Payload).

End Resolvers.

End BooksViews.

(** ** A concrete framework and sample stores

    One implementation of the framework services, small enough to run:
    Django's base-36 codec as written there, and stand-ins for the keyed
    hash, the password hasher and the text of a datetime; over it, the
    repository's own [token_generator]. The general results below are
    instantiated on it. *)

Module Fixture.
Import Tokens.

Definition char_set : string := "0123456789abcdefghijklmnopqrstuvwxyz".

Definition digit (n : Z) : string :=
  match String.get (Z.to_nat n) char_set with
  | Some c => String c EmptyString
  | None => EmptyString
  end.

(** The [while i != 0] loop of [int_to_base36], for [base] 36, and of a
    hexadecimal digest, for [base] 16. *)
Fixpoint digits (base : Z) (fuel : nat) (i : Z) (acc : string) : string :=
  match fuel with
  | O => acc
  | S fuel => if i =? 0 then acc
              else digits base fuel (i `div` base) (digit (i `mod` base) +:+ acc)
  end.

Definition fx_int_to_base36 (i : Z) : string :=
  if i <? 36 then digit i else digits 36 64 i EmptyString.

Definition digit_value (c : ascii) : option Z :=
  let n := Z.of_nat (nat_of_ascii c) in
  if (48 <=? n) && (n <=? 57) then Some (n - 48)
  else if (97 <=? n) && (n <=? 122) then Some (n - 87)
  else if (65 <=? n) && (n <=? 90) then Some (n - 55)
  else None.

Fixpoint parse_digits (acc : Z) (s : string) : option Z :=
  match s with
  | EmptyString => Some acc
  | String c rest =>
      match digit_value c with
      | Some d => parse_digits (acc * 36 + d) rest
      | None => None
      end
  end.

Definition fx_base36_to_int (s : string) : option Z :=
  if bool_decide (s = "") then None
  else if (13 <? String.length s)%nat then None
  else parse_digits 0 s.

Fixpoint mix (h : Z) (s : string) : Z :=
  match s with
  | EmptyString => h
  | String c rest => mix ((h * 131 + Z.of_nat (nat_of_ascii c)) `mod` 2 ^ 64) rest
  end.

Definition fx_salted_hmac (value : string) : string :=
  digits 16 32 (mix 5381 value + 2 ^ 64) EmptyString.

Definition fx_make_password (raw : option string) : string :=
  match raw with
  | Some raw => "pbkdf2_sha256$" +:+ fx_salted_hmac raw
  | None => "!"
  end.

#[export] Instance framework : Framework := {|
  salted_hmac := fx_salted_hmac;
  text_type_datetime := text_type_int;
  int_to_base36 := fx_int_to_base36;
  base36_to_int := fx_base36_to_int;
  PASSWORD_RESET_TIMEOUT := 259200;
  make_password := fx_make_password;
  check_password := λ raw encoded, bool_decide (encoded = fx_make_password (Some raw));
  normalize_email := λ e, e
|}.

#[export] Instance generator : TokenGenerator := token_generator.

(** Noon of 2024-01-01, in microseconds since 2001-01-01. *)
Definition noon : Z := 725889600000000.

Definition alice : CustomUser :=
  set_roles false false true
    (model (fx_make_password (Some "p1")) "a@x.com" "alice" "Alice" "A").

Definition bob : CustomUser :=
  set_roles false false true
    (model (fx_make_password (Some "p2")) "b@x.com" "bob" "Bob" "B").

Definition carol : CustomUser :=
  model (fx_make_password (Some "p3")) "c@x.com" "carol" "Carol" "C".

Definition alice_token : string := make_token noon (1, alice).
Definition bob_token : string := make_token noon (2, bob).
Definition carol_token : string := make_token noon (3, carol).

Definition dune : BooksModels.Book :=
  {| BooksModels.title := PyStr "Dune"; BooksModels.isbn := PyStr "0441013597";
     BooksModels.description := PyStr "Arrakis";
     BooksModels.author := {["author-alice"]}; BooksModels.genres := {["genre-sf"]};
     BooksModels.rating := PyInt 4; BooksModels.publishyear := PyStr "1965-08-01";
     BooksModels.avaliablecopies := PyInt 3; BooksModels.noofreviews := PyInt 2;
     BooksModels.bookpages := PyInt 412 |}.

(** Alice and Bob are authors, Carol is not; all three are logged in with
    the token issued at [noon]; the one book is Alice's. *)
Definition library : Store :=
  {| CustomUser_objects :=
       {[ 1 := set_token (Some alice_token) alice;
          2 := set_token (Some bob_token) bob;
          3 := set_token (Some carol_token) carol ]};
     AuthorUser_objects :=
       {[ "author-alice" := mkAuthorUser 1 "1970-01-01" "NG";
          "author-bob" := mkAuthorUser 2 "1980-01-01" "NG" ]};
     Genre_objects :=
       {[ "genre-sf" := GenreModels.mkGenre "Science fiction" "Futures";
          "genre-crime" := GenreModels.mkGenre "Crime" "Detectives" ]};
     Book_objects := {[ "book-dune" := dune ]};
     session := None |}.

(** The same users before anyone has logged in. *)
Definition registered : Store :=
  {| CustomUser_objects := {[ 1 := alice; 2 := bob; 3 := carol ]};
     AuthorUser_objects := AuthorUser_objects library;
     Genre_objects := Genre_objects library;
     Book_objects := Book_objects library;
     session := None |}.

(** [library] with Carol's stored token cleared. *)
Definition carol_logged_out : Store :=
  set_CustomUser_objects (<[3 := carol]> (CustomUser_objects library)) library.

Definition bearer (token : string) : HttpRequest :=
  {| HTTP_AUTHORIZATION := Some token |}.

End Fixture.

(** ** Store predicates used in the statements *)

Module StoreProps.

(** The [unique=True] of [CustomUser.token]: no two rows share a token
    (rows without a token aside). *)
Definition tokens_unique (st : Store) : Prop :=
  ∀ k1 k2 u1 u2 t,
    CustomUser_objects st !! k1 = Some u1 →
    CustomUser_objects st !! k2 = Some u2 →
    token u1 = Some t → token u2 = Some t → k1 = k2.

(** No row of the user table stores [t]. *)
Definition token_unknown (t : string) (st : Store) : Prop :=
  ∀ k u, CustomUser_objects st !! k = Some u → token u ≠ Some t.

(** Both predicates can be decided by running over the table. *)
#[global] Instance token_unknown_dec t st : Decision (token_unknown t st).
Proof.
  unfold token_unknown.
  apply (map_Forall_dec (λ (_ : Z) (u : CustomUser), token u ≠ Some t)).
Defined.

#[global] Instance tokens_unique_dec st : Decision (tokens_unique st).
Proof.
  destruct (decide (map_Forall (λ k1 u1,
    map_Forall (λ k2 u2, token u1 = token u2 → token u1 = None ∨ k1 = k2)
               (CustomUser_objects st)) (CustomUser_objects st)))
    as [Hall|Hnot]; [left|right].
  - intros k1 k2 u1 u2 t H1 H2 Ht1 Ht2.
    destruct (Hall k1 u1 H1 k2 u2 H2) as [Hn| ->]; [congruence| |done].
    rewrite Ht1 in Hn. done.
  - intros Hu. apply Hnot. intros k1 u1 H1 k2 u2 H2 Heq.
    destruct (token u1) as [t|] eqn:Ht; [right|by left].
    by apply (Hu k1 k2 u1 u2 t).
Defined.

(** The store [verify_header] leaves behind when it finds [user]'s token
    expired: session ended, stored token cleared. *)
Definition expired (user : Z * CustomUser) (st : Store) : Store :=
  set_CustomUser_objects
    (<[user.1 := set_token None user.2]> (CustomUser_objects st))
    (set_session None st).

(** The store after [user] has logged in with [token] stored. *)
Definition logged_in (user : Z * CustomUser) (st : Store) : Store :=
  set_session (Some user.1)
    (set_CustomUser_objects (<[user.1 := user.2]> (CustomUser_objects st)) st).

(** A resolver that hands back an error object and leaves the book table
    as it found it. *)
Definition returns_error (m : M resolved) (st : Store) : Prop :=
  ∃ msg st', m st = (Return (ErrorValue (GraphQLError msg)), st') ∧
             Book_objects st' = Book_objects st.

End StoreProps.

(** ** account/models.py: the superuser path of the manager *)

Module AccountManagers.

Section Manager.
Context `{Framework}.

(** [CustomUserManager.create_superuser(email, password, **kwargs)]. The
    three keywords it gives a default to are passed apart, [None] for a
    keyword the caller left out; [kwargs] is the instance built from the
    caller's other keywords. *)
Definition create_superuser (email : string) (password : option string)
    (is_admin is_author is_patron : option bool) (kwargs : CustomUser)
    : M (Z * CustomUser) :=
  let is_admin := default true is_admin in
  let is_author := default true is_author in
  let is_patron := default true is_patron in
  AccountViews.create_user email password (set_roles is_admin is_patron is_author kwargs).

End Manager.

End AccountManagers.

(** ** books/views.py, genre/views.py, account/views.py: the queries *)

Module Queries.
Import Tokens.

(** [AllBookQuery.resolve_all_book]: a queryset is the table of its rows. *)
Definition resolve_all_book : M (gmap string BooksModels.Book) := gets Book_objects.

(** [AllBookQuery.resolve_single_book] *)
Definition resolve_single_book (bookid : string) : M (string * BooksModels.Book) :=
  ORM.query (λ st, ORM.objects_get_pk "Book" bookid (Book_objects st)).

(** [GenreQuery.resolve_single_genre] *)
Definition resolve_single_genre (genreid : string) : M (string * GenreModels.Genre) :=
  ORM.query (λ st, ORM.objects_get_pk "Genre" genreid (Genre_objects st)).

(** [AuthorQuery.resolve_all_author] *)
Definition resolve_all_author : M (gmap string AuthorUser) := gets AuthorUser_objects.

Section Gated.
Context `{TokenGenerator}.

(** [AllBookQuery.resolve_author_book] *)
Definition resolve_author_book (now : Z) (info : HttpRequest)
    : M (gmap string BooksModels.Book) :=
  user ← verify_header now info;
  if negb (is_author user.2) then raise (GraphQLError "User is not an author")
  else
    authoruser ← ORM.authoruser user;
    gets (ORM.book_set authoruser).

End Gated.

End Queries.

(** ** Further store predicates *)

Module Integrity.

(** The book-genre relation points at rows of the genre table only. *)
Definition genres_exist (st : Store) : Prop :=
  ∀ bookid book genreid,
    Book_objects st !! bookid = Some book →
    genreid ∈ BooksModels.genres book →
    is_Some (Genre_objects st !! genreid).

(** No book carries the genre. *)
Definition genre_unused (genreid : string) (st : Store) : Prop :=
  ∀ bookid book, Book_objects st !! bookid = Some book →
                 genreid ∉ BooksModels.genres book.

(** A row of the user table is what it was, or what it was with the
    stored token replaced by [t]. *)
Definition row_kept_or_token_set (t : option string) (before after : option CustomUser)
    : Prop :=
  after = before ∨ ∃ u, before = Some u ∧ after = Some (set_token t u).

End Integrity.

(** * Properties *)

(** ** The object-relational layer *)

Section ORMFacts.
Context {K A : Type} `{Countable K}.
Context (P : A → Prop) `{!∀ a, Decision (P a)}.
Implicit Types (table : gmap K A).

Lemma filter_rows_singleton table k a :
  table !! k = Some a → P a →
  (∀ k' a', table !! k' = Some a' → P a' → k' = k) →
  filter (λ row : K * A, P row.2) table = {[k := a]}.
Proof.
  intros Hk HP Huniq. apply map_eq. intros i.
  destruct (decide (i = k)) as [->|Hne].
  - rewrite lookup_singleton_eq. by apply map_lookup_filter_Some.
  - rewrite lookup_singleton_ne by done.
    apply map_lookup_filter_None. right. intros a' Ha' HP'. cbn in HP'.
    by apply Hne, (Huniq i a').
Qed.

Lemma objects_get_found name table k a :
  table !! k = Some a → P a →
  (∀ k' a', table !! k' = Some a' → P a' → k' = k) →
  ORM.objects_get name P table = Return (k, a).
Proof.
  intros Hk HP Huniq. unfold ORM.objects_get.
  by rewrite (filter_rows_singleton table k a), map_to_list_singleton.
Qed.

Lemma objects_get_none name table :
  (∀ k a, table !! k = Some a → ¬ P a) →
  ORM.objects_get name P table =
  Raise (DoesNotExist (name +:+ " matching query does not exist.")).
Proof.
  intros Hnone. unfold ORM.objects_get.
  assert (filter (λ row : K * A, P row.2) table = ∅) as ->; [|by rewrite map_to_list_empty].
  apply map_empty_filter. intros k a Hk. by apply Hnone in Hk.
Qed.

Lemma objects_get_Return name table k a :
  ORM.objects_get name P table = Return (k, a) →
  filter (λ row : K * A, P row.2) table = {[k := a]}.
Proof.
  unfold ORM.objects_get.
  destruct (map_to_list _) as [|[k' a'] [|? ?]] eqn:Hl; intros Hr; simplify_eq.
  rewrite <-(list_to_map_to_list (filter _ table)), Hl. cbn.
  by rewrite insert_empty.
Qed.

Lemma objects_get_Return_lookup name table k a :
  ORM.objects_get name P table = Return (k, a) →
  table !! k = Some a ∧ P a ∧ ∀ k' a', table !! k' = Some a' → P a' → k' = k.
Proof.
  intros Hf%objects_get_Return.
  assert (filter (λ row : K * A, P row.2) table !! k = Some a) as Hk
    by (by rewrite Hf, lookup_singleton_eq).
  apply map_lookup_filter_Some in Hk as [Hk HP]. split_and!; [done..|].
  intros k' a' Hk' HP'.
  assert (filter (λ row : K * A, P row.2) table !! k' = Some a') as Hin
    by (by apply map_lookup_filter_Some).
  rewrite Hf in Hin. by apply lookup_singleton_Some in Hin as [-> _].
Qed.

Lemma objects_get_DoesNotExist name table msg :
  ORM.objects_get name P table = Raise (DoesNotExist msg) →
  ∀ k a, table !! k = Some a → ¬ P a.
Proof.
  unfold ORM.objects_get.
  destruct (map_to_list _) as [|[k' a'] [|? ?]] eqn:Hl; intros Hr; simplify_eq.
  apply map_to_list_empty_iff in Hl. intros k a Hk HP.
  assert (filter (λ row : K * A, P row.2) table !! k = Some a) as Hin
    by (by apply map_lookup_filter_Some).
  by rewrite Hl in Hin.
Qed.

(** [get] raises nothing but its own two exceptions, and
    [MultipleObjectsReturned] only over two distinct matching rows. *)
Lemma objects_get_Raise name table e :
  ORM.objects_get name P table = Raise e →
  (∃ msg, e = DoesNotExist msg) ∨
  (∃ msg k1 k2 a1 a2, e = MultipleObjectsReturned msg ∧ k1 ≠ k2 ∧
     table !! k1 = Some a1 ∧ P a1 ∧ table !! k2 = Some a2 ∧ P a2).
Proof.
  unfold ORM.objects_get.
  destruct (map_to_list _) as [|[k1 a1] [|[k2 a2] rest]] eqn:Hl; intros Hr; simplify_eq.
  - left. eauto.
  - right. eexists _, k1, k2, a1, a2. split; [done|].
    pose proof (NoDup_fst_map_to_list (filter (λ row : K * A, P row.2) table)) as Hnd.
    rewrite Hl in Hnd. cbn in Hnd.
    assert ((k1, a1) ∈ map_to_list (filter (λ row : K * A, P row.2) table)) as H1
      by (rewrite Hl; set_solver).
    assert ((k2, a2) ∈ map_to_list (filter (λ row : K * A, P row.2) table)) as H2
      by (rewrite Hl; set_solver).
    apply elem_of_map_to_list, map_lookup_filter_Some in H1 as [? ?].
    apply elem_of_map_to_list, map_lookup_filter_Some in H2 as [? ?].
    split_and!; try done.
    apply NoDup_cons in Hnd as [Hnotin _]. intros ->. apply Hnotin. set_solver.
Qed.

End ORMFacts.

(** ** Token strings *)

Section SplitFacts.
Import PasswordResetTokenGenerator.
Implicit Types (sep : ascii) (s a b : string).

Lemma split_nonempty sep s : split sep s ≠ [].
Proof.
  destruct s as [|c rest]; cbn; [done|].
  case_bool_decide; [done|]. by destruct (split sep rest).
Qed.

Lemma split_length sep s : length (split sep s) = S (count sep s).
Proof.
  induction s as [|c rest IH]; cbn; [done|].
  case_bool_decide; cbn; [by rewrite IH|].
  destruct (split sep rest) eqn:Hs; [by apply split_nonempty in Hs|].
  cbn in *. lia.
Qed.

Lemma append_nil b : "" +:+ b = b.
Proof. reflexivity. Qed.

Lemma append_cons c a b : String c a +:+ b = String c (a +:+ b).
Proof. reflexivity. Qed.

Lemma count_app sep a b : count sep (a +:+ b) = (count sep a + count sep b)%nat.
Proof.
  induction a as [|c a IH]; [done|].
  rewrite append_cons. cbn. rewrite IH. lia.
Qed.

Lemma split_no_sep sep s : count sep s = 0%nat → split sep s = [s].
Proof.
  induction s as [|c rest IH]; cbn; [done|].
  case_bool_decide; [done|]. intros Hc. by rewrite IH.
Qed.

Lemma split_app_sep sep a b :
  count sep a = 0%nat → split sep (a +:+ String sep b) = a :: split sep b.
Proof.
  induction a as [|c a IH].
  - intros _. rewrite append_nil. cbn. by rewrite bool_decide_eq_true_2.
  - rewrite append_cons. cbn. case_bool_decide; [done|]. intros Hc. by rewrite IH.
Qed.

(** A string with exactly two parts is split at its only separator,
    however it was put together. *)
Lemma split_two_parts sep a b x y :
  split sep (a +:+ String sep b) = [x; y] → x = a ∧ y = b.
Proof.
  intros Hs.
  pose proof (split_length sep (a +:+ String sep b)) as Hlen.
  rewrite Hs, count_app in Hlen. cbn in Hlen.
  rewrite bool_decide_eq_true_2 in Hlen by done.
  assert (count sep a = 0%nat) as Ha by lia.
  assert (count sep b = 0%nat) as Hb by lia.
  rewrite split_app_sep, (split_no_sep sep b) in Hs by done.
  by simplify_eq.
Qed.

End SplitFacts.

(** ** The framework's token generator over the repository's hash input *)

Section GeneratorFacts.
Import PasswordResetTokenGenerator.
Context `{Framework}.
Context (hash_value : Z → Z * CustomUser → Z → string).
Implicit Types (now : Z) (user : Z * CustomUser) (token : string).

(** What an accepted token looks like. *)
Lemma check_token_true now user token :
  check_token hash_value now user token = true →
  ∃ ts_b36 hash ts,
    split "-" token = [ts_b36; hash] ∧
    base36_to_int ts_b36 = Some ts ∧
    token = _make_token_with_timestamp hash_value now user ts ∧
    hash = salted_hmac (hash_value now user ts) ∧
    _num_seconds now - ts ≤ PASSWORD_RESET_TIMEOUT.
Proof.
  unfold check_token. case_bool_decide as Hne; [done|].
  destruct (split "-" token) as [|ts_b36 [|hash [|? ?]]] eqn:Hs; try done.
  destruct (base36_to_int ts_b36) as [ts|] eqn:Hts; [|done].
  case_bool_decide as Heq; [|done].
  intros Hle%negb_true_iff%Z.ltb_ge.
  exists ts_b36, hash, ts. split_and!; try done.
  rewrite <-Heq in Hs. unfold _make_token_with_timestamp in Hs.
  rewrite append_cons, append_nil in Hs.
  by apply split_two_parts in Hs as [_ ->].
Qed.

(** A token checked at the clock reading it was made at is accepted,
    provided the hash input is the same at both calls. *)
Lemma check_token_make_token now user :
  0 ≤ PASSWORD_RESET_TIMEOUT →
  count "-" (int_to_base36 (_num_seconds now)) = 0%nat →
  count "-" (salted_hmac (hash_value now user (_num_seconds now))) = 0%nat →
  base36_to_int (int_to_base36 (_num_seconds now)) = Some (_num_seconds now) →
  check_token hash_value now user (make_token hash_value now user) = true.
Proof.
  intros Htimeout Hts Hhash Hparse. unfold check_token, make_token.
  assert (split "-" (_make_token_with_timestamp hash_value now user (_num_seconds now)) =
          [int_to_base36 (_num_seconds now);
           salted_hmac (hash_value now user (_num_seconds now))]) as ->.
  { unfold _make_token_with_timestamp.
    by rewrite append_cons, append_nil, split_app_sep, split_no_sep. }
  rewrite bool_decide_eq_false_2.
  2: { unfold _make_token_with_timestamp. destruct (int_to_base36 _); discriminate. }
  rewrite Hparse, bool_decide_eq_true_2 by done.
  apply negb_true_iff, Z.ltb_ge. lia.
Qed.

End GeneratorFacts.

(** ** account/tokens.py: the hash input *)

Section HashValueFacts.
Import Tokens.
Context `{Framework}.
#[local] Existing Instance token_generator.

(** The hash input ignores the timestamp it is given, and of the user
    reads the primary key and [is_active] only. *)
Lemma _make_hash_value_ignores_timestamp now user ts ts' :
  _make_hash_value now user ts = _make_hash_value now user ts'.
Proof. done. Qed.

Lemma _make_hash_value_set_token now k u t ts :
  _make_hash_value now (k, set_token t u) ts = _make_hash_value now (k, u) ts.
Proof. done. Qed.

(** The two methods of [token_generator] are the inherited ones. *)
Lemma token_generator_make_token now user :
  make_token now user =
  PasswordResetTokenGenerator.make_token _make_hash_value now user.
Proof. done. Qed.

Lemma token_generator_check_token now user token :
  check_token now user token =
  PasswordResetTokenGenerator.check_token _make_hash_value now user token.
Proof. done. Qed.

Lemma make_token_set_token now k u t :
  make_token now (k, set_token t u) = make_token now (k, u).
Proof. done. Qed.

Lemma check_token_set_token now k u t token :
  check_token now (k, set_token t u) token = check_token now (k, u) token.
Proof. done. Qed.

(** A token the repository's generator issues is never empty, so a stored
    one counts as present. *)
Lemma issued_token_truthy now user : truthy (Some (make_token now user)) = true.
Proof.
  cbn. rewrite bool_decide_eq_false_2; [done|].
  unfold PasswordResetTokenGenerator.make_token,
    PasswordResetTokenGenerator._make_token_with_timestamp.
  destruct (int_to_base36 _); discriminate.
Qed.

End HashValueFacts.

(** ** account/tokens.py: the gate *)

Section GateFacts.
Import Tokens StoreProps.
Context `{TokenGenerator}.
Implicit Types (now : Z) (request : HttpRequest) (st : Store) (token : string).

Lemma truthy_Some token : token ≠ "" → truthy (Some token) = true.
Proof. intros Hne. cbn. by rewrite bool_decide_eq_false_2. Qed.

Lemma truthy_true (header : option string) :
  truthy header = true → ∃ token, header = Some token ∧ token ≠ "".
Proof.
  destruct header as [token|]; [|done]. cbn.
  case_bool_decide; [done|]. eauto.
Qed.

Lemma verify_header_no_header now request st :
  truthy (HTTP_AUTHORIZATION request) = false →
  verify_header now request st = (Raise Unauthenticated, st).
Proof. intros Hf. unfold verify_header. by rewrite Hf. Qed.

(** With a header, the gate is decided by the lookup and then by
    [check_token]. *)
Lemma verify_header_lookup now request st token :
  HTTP_AUTHORIZATION request = Some token → token ≠ "" →
  verify_header now request st =
  match ORM.objects_get "CustomUser" (λ u, AccountModels.token u = Some token)
                        (CustomUser_objects st) with
  | Return user =>
      if check_token now user token then (Return user, st)
      else (Raise TokenExpired, expired user st)
  | Raise (DoesNotExist _) => (Raise InvalidToken, st)
  | Raise e => (Raise e, st)
  end.
Proof.
  intros Hh Hne. unfold verify_header. rewrite Hh, truthy_Some by done.
  unfold mbind, M_bind, try_except_DoesNotExist, try_except, ORM.query. cbn.
  destruct (ORM.objects_get _ _ _) as [user|e]; [|by destruct e].
  by destruct (check_token now user token).
Qed.

Lemma verify_header_found now request st token k u :
  HTTP_AUTHORIZATION request = Some token → token ≠ "" →
  CustomUser_objects st !! k = Some u → AccountModels.token u = Some token →
  tokens_unique st →
  verify_header now request st =
  if check_token now (k, u) token then (Return (k, u), st)
  else (Raise TokenExpired, expired (k, u) st).
Proof.
  intros Hh Hne Hk Ht Huniq.
  rewrite (verify_header_lookup _ _ _ token) by done.
  rewrite (objects_get_found _ _ _ k u); [done..|].
  intros k' u' Hk' Ht'. by apply (Huniq k' k u' u token).
Qed.

Lemma verify_header_unknown now request st token :
  HTTP_AUTHORIZATION request = Some token → token ≠ "" →
  token_unknown token st →
  verify_header now request st = (Raise InvalidToken, st).
Proof.
  intros Hh Hne Hunk.
  rewrite (verify_header_lookup _ _ _ token) by done.
  by rewrite objects_get_none.
Qed.

(** A successful call changes nothing, and returns a row of the table
    that stores the presented token. *)
Lemma verify_header_Return now request st user st' :
  verify_header now request st = (Return user, st') →
  st' = st ∧
  CustomUser_objects st !! user.1 = Some user.2 ∧
  HTTP_AUTHORIZATION request = token user.2 ∧
  truthy (token user.2) = true ∧
  check_token now user (default "" (token user.2)) = true.
Proof.
  intros Hv.
  destruct (truthy (HTTP_AUTHORIZATION request)) eqn:Htr.
  2: { by rewrite verify_header_no_header in Hv. }
  apply truthy_true in Htr as (tok & Hh & Hne).
  rewrite (verify_header_lookup _ _ _ tok) in Hv by done.
  destruct (ORM.objects_get _ _ _) as [[k u]|e] eqn:Hget; [|by destruct e].
  destruct (check_token now (k, u) tok) eqn:Hchk; [|done].
  simplify_eq. apply objects_get_Return_lookup in Hget as (Hk & Ht & _).
  change (token (k, u).2) with (token u). rewrite Ht.
  split_and!; try done. by apply truthy_Some.
Qed.

(** Whatever the outcome, only the user table and the session can have
    changed. *)
Lemma verify_header_frame now request st r st' :
  verify_header now request st = (r, st') →
  AuthorUser_objects st' = AuthorUser_objects st ∧
  Genre_objects st' = Genre_objects st ∧
  Book_objects st' = Book_objects st.
Proof.
  intros Hv.
  destruct (truthy (HTTP_AUTHORIZATION request)) eqn:Htr.
  2: { rewrite verify_header_no_header in Hv by done. by simplify_eq. }
  apply truthy_true in Htr as (tok & Hh & Hne).
  rewrite (verify_header_lookup _ _ _ tok) in Hv by done.
  destruct (ORM.objects_get _ _ _) as [user|e].
  - destruct (check_token now user tok); by simplify_eq.
  - destruct e; by simplify_eq.
Qed.

(** The gate raises nothing but [GraphQLError], unless two rows store the
    presented token. *)
Lemma verify_header_Raise now request st e st' :
  tokens_unique st →
  verify_header now request st = (Raise e, st') →
  e = Unauthenticated ∨ e = InvalidToken ∨ e = TokenExpired.
Proof.
  intros Huniq Hv.
  destruct (truthy (HTTP_AUTHORIZATION request)) eqn:Htr.
  2: { rewrite verify_header_no_header in Hv by done. left. by simplify_eq. }
  apply truthy_true in Htr as (tok & Hh & Hne).
  rewrite (verify_header_lookup _ _ _ tok) in Hv by done.
  destruct (ORM.objects_get _ _ _) as [user|e0] eqn:Hget.
  - destruct (check_token now user tok); simplify_eq. by right; right.
  - apply objects_get_Raise in Hget
      as [[msg ->]|(msg & k1 & k2 & u1 & u2 & -> & Hne12 & ? & ? & ? & ?)].
    + right; left. by simplify_eq.
    + destruct Hne12. by apply (Huniq k1 k2 u1 u2 tok).
Qed.

End GateFacts.

Section ExpiredFacts.
Import StoreProps.

(** Expiry clears the token of that one row, ends the session, and leaves
    the other tables alone. *)
Lemma expired_spec k u st :
  CustomUser_objects (expired (k, u) st) !! k = Some (set_token None u) ∧
  token (set_token None u) = None ∧
  session (expired (k, u) st) = None ∧
  (∀ k', k' ≠ k →
     CustomUser_objects (expired (k, u) st) !! k' = CustomUser_objects st !! k') ∧
  AuthorUser_objects (expired (k, u) st) = AuthorUser_objects st ∧
  Genre_objects (expired (k, u) st) = Genre_objects st ∧
  Book_objects (expired (k, u) st) = Book_objects st.
Proof.
  unfold expired. cbn. split_and!; try done.
  - by rewrite lookup_insert_eq.
  - intros k' Hne. by rewrite lookup_insert_ne.
Qed.

(** Once its only holder has lost it, nobody stores the token. *)
Lemma expired_token_unknown k u t st :
  CustomUser_objects st !! k = Some u →
  (∀ k' u', CustomUser_objects st !! k' = Some u' → token u' = Some t → k' = k) →
  token_unknown t (expired (k, u) st).
Proof.
  intros Hk Honly k' u' Hk'. unfold expired in Hk'. cbn in Hk'.
  destruct (decide (k' = k)) as [->|Hne].
  - rewrite lookup_insert_eq in Hk'. by simplify_eq.
  - rewrite lookup_insert_ne in Hk' by done. intros Ht. by apply Hne, (Honly k' u').
Qed.

(** Expiry keeps the unique-token constraint. *)
Lemma expired_tokens_unique k u st :
  tokens_unique st → tokens_unique (expired (k, u) st).
Proof.
  intros Huniq k1 k2 u1 u2 t H1 H2 Ht1 Ht2. unfold expired in H1, H2. cbn in H1, H2.
  destruct (decide (k1 = k)) as [->|Hne1].
  { rewrite lookup_insert_eq in H1. by simplify_eq. }
  destruct (decide (k2 = k)) as [->|Hne2].
  { rewrite lookup_insert_eq in H2. by simplify_eq. }
  rewrite lookup_insert_ne in H1, H2 by done.
  by apply (Huniq k1 k2 u1 u2 t).
Qed.

End ExpiredFacts.

(** ** Claims about the gate *)

Section GateClaims.
Import Tokens StoreProps.
Context `{TokenGenerator}.

(** C1, amended. In a store that honours the unique-token constraint,
    [verify_header] ends in exactly one of FOUR ways: with no (or an
    empty) authorization value it raises [Unauthenticated], the store
    untouched; with a token no identity stores it raises [InvalidToken],
    the store untouched; with a token some identity stores it returns
    that identity when [check_token] accepts, the store untouched, and
    otherwise clears that identity's stored token, ends the session and
    raises [TokenExpired]. *)
Theorem verify_header_decision_procedure (now : Z) (request : HttpRequest) (st : Store) :
  tokens_unique st →
  (truthy (HTTP_AUTHORIZATION request) = false ∧
   verify_header now request st = (Raise Unauthenticated, st))
  ∨
  (∃ token, HTTP_AUTHORIZATION request = Some token ∧ token ≠ "" ∧
     token_unknown token st ∧
     verify_header now request st = (Raise InvalidToken, st))
  ∨
  (∃ token k u, HTTP_AUTHORIZATION request = Some token ∧ token ≠ "" ∧
     CustomUser_objects st !! k = Some u ∧ AccountModels.token u = Some token ∧
     check_token now (k, u) token = true ∧
     verify_header now request st = (Return (k, u), st))
  ∨
  (∃ token k u, HTTP_AUTHORIZATION request = Some token ∧ token ≠ "" ∧
     CustomUser_objects st !! k = Some u ∧ AccountModels.token u = Some token ∧
     check_token now (k, u) token = false ∧
     verify_header now request st = (Raise TokenExpired, expired (k, u) st) ∧
     AccountModels.token <$> CustomUser_objects (expired (k, u) st) !! k = Some None ∧
     session (expired (k, u) st) = None).
Proof.
  intros Huniq.
  destruct (truthy (HTTP_AUTHORIZATION request)) eqn:Htr.
  2: { left. split; [done|]. by apply verify_header_no_header. }
  right. apply truthy_true in Htr as (tok & Hh & Hne).
  destruct (decide (token_unknown tok st)) as [Hunk|Hknown].
  { left. exists tok. split_and!; try done.
    by apply (verify_header_unknown _ _ _ tok). }
  right.
  apply (map_not_Forall (λ (_ : Z) (u : CustomUser), token u ≠ Some tok)) in Hknown
    as (k & u & Hk & Ht).
  apply dec_stable in Ht.
  pose proof (verify_header_found now request st tok k u Hh Hne Hk Ht Huniq) as Hv.
  destruct (check_token now (k, u) tok) eqn:Hchk; [left|right];
    exists tok, k, u; split_and!; try done.
  by destruct (expired_spec k u st) as (-> & _).
Qed.

(** C3. Once [verify_header] has raised [TokenExpired], the identity
    that held the presented token has no stored token, the session is
    closed, and presenting the same token again, at any later clock
    reading, raises [InvalidToken] and changes nothing more. *)
Theorem token_expiry_is_not_repeatable
    (now : Z) (request : HttpRequest) (st st' : Store) :
  verify_header now request st = (Raise TokenExpired, st') →
  ∃ token k u,
    HTTP_AUTHORIZATION request = Some token ∧
    CustomUser_objects st !! k = Some u ∧ AccountModels.token u = Some token ∧
    CustomUser_objects st' !! k = Some (set_token None u) ∧
    AccountModels.token (set_token None u) = None ∧
    session st' = None ∧
    ∀ later, verify_header later request st' = (Raise InvalidToken, st') ∧
             InvalidToken ≠ TokenExpired.
Proof.
  intros Hv.
  destruct (truthy (HTTP_AUTHORIZATION request)) eqn:Htr.
  2: { by rewrite verify_header_no_header in Hv. }
  apply truthy_true in Htr as (tok & Hh & Hne).
  rewrite (verify_header_lookup _ _ _ tok) in Hv by done.
  destruct (ORM.objects_get _ _ _) as [[k u]|e] eqn:Hget.
  - destruct (check_token now (k, u) tok); [done|]. simplify_eq.
    apply objects_get_Return_lookup in Hget as (Hk & Ht & Honly).
    destruct (expired_spec k u st) as (Hk' & Hnone & Hsess & _).
    exists tok, k, u. split_and!; try done.
    intros later. split; [|done].
    apply (verify_header_unknown _ _ _ tok); [done..|].
    by apply expired_token_unknown.
  - apply objects_get_Raise in Hget as [[msg ->]|(msg & ? & ? & ? & ? & -> & _)];
      by simplify_eq.
Qed.

(** C4, amended. When no identity stores the submitted token, and so in
    particular when every identity's stored token is null, a NON-EMPTY
    submitted token makes [verify_header] raise [InvalidToken] with the
    store unchanged, whatever token generator is in place (so whatever
    its [check_token] would answer) and at any clock reading. *)
Theorem unknown_token_is_invalid (now : Z) (token : string) (st : Store) :
  token ≠ "" →
  token_unknown token st →
  verify_header now {| HTTP_AUTHORIZATION := Some token |} st = (Raise InvalidToken, st).
Proof. intros Hne Hunk. by apply (verify_header_unknown _ _ _ token). Qed.

(** A store all of whose identities have a null token knows no token. *)
Lemma all_null_token_unknown (token : string) (st : Store) :
  (∀ k u, CustomUser_objects st !! k = Some u → AccountModels.token u = None) →
  token_unknown token st.
Proof. intros Hnull k u Hk. by rewrite (Hnull k u Hk). Qed.

(** The identity the gate resolves, to return it or to expire it, is never
    one whose stored token is null. *)
Lemma verify_header_never_resolves_null (now : Z) (request : HttpRequest) (st st' : Store)
    (user : Z * CustomUser) :
  verify_header now request st = (Return user, st') →
  AccountModels.token user.2 ≠ None.
Proof.
  intros (_ & _ & _ & Htr & _)%verify_header_Return.
  by destruct (AccountModels.token user.2).
Qed.

End GateClaims.

Section RoundTrip.
Import PasswordResetTokenGenerator Tokens StoreProps.
Context `{Framework}.
#[local] Existing Instance token_generator.

(** C2. Issue and verify at one clock reading: when the string
    [make_token] produces for an identity is that identity's stored token
    (and, as the database guarantees, nobody else's), [verify_header]
    called with that string at the same clock reading returns that
    identity and changes nothing. And whenever [check_token] answers
    true, the token has exactly two parts and the second is the hash of
    the text rebuilt from the CHECK's own clock reading plus ten seconds.
    The first four hypotheses are facts of the framework: the timeout is
    not negative, neither the base-36 text nor the digest contains the
    delimiter, and parsing inverts printing. *)
Theorem issued_token_round_trip (now : Z) (k : Z) (u : CustomUser) (st : Store) :
  0 ≤ PASSWORD_RESET_TIMEOUT →
  count "-" (int_to_base36 (_num_seconds now)) = 0%nat →
  count "-" (salted_hmac (_make_hash_value now (k, u) (_num_seconds now))) = 0%nat →
  base36_to_int (int_to_base36 (_num_seconds now)) = Some (_num_seconds now) →
  tokens_unique st →
  CustomUser_objects st !! k = Some (set_token (Some (make_token now (k, u))) u) →
  verify_header now {| HTTP_AUTHORIZATION := Some (make_token now (k, u)) |} st =
    (Return (k, set_token (Some (make_token now (k, u))) u), st)
  ∧
  ∀ (now' : Z) (user : Z * CustomUser) (token : string),
    check_token now' user token = true →
    ∃ ts_b36 hash,
      split "-" token = [ts_b36; hash] ∧
      hash = salted_hmac (text_type_int user.1 +:+
                          text_type_datetime (now' + timedelta_seconds 10) +:+
                          text_type_bool (is_active user.2)).
Proof.
  intros Htimeout Hts Hhash Hparse Huniq Hk. split.
  - rewrite (verify_header_found _ _ _ (make_token now (k, u)) k
               (set_token (Some (make_token now (k, u))) u)); try done.
    + rewrite check_token_set_token, token_generator_check_token,
        token_generator_make_token.
      by rewrite check_token_make_token.
    + rewrite token_generator_make_token.
      unfold PasswordResetTokenGenerator.make_token, _make_token_with_timestamp.
      destruct (int_to_base36 _); discriminate.
  - intros now' user token Hchk. rewrite token_generator_check_token in Hchk.
    apply check_token_true in Hchk as (ts_b36 & hash & ts & Hs & _ & _ & -> & _).
    by exists ts_b36, (salted_hmac (_make_hash_value now' user ts)).
Qed.

(** The repository's generator reads the primary key and [is_active]
    only, so the gate lets the same request through whatever role flags
    the identity's row carries. *)
Lemma gate_ignores_role_flags (now : Z) (request : HttpRequest) (st : Store)
    (k : Z) (u : CustomUser) (admin patron author : bool) :
  verify_header now request st = (Return (k, u), st) →
  verify_header now request
    (set_CustomUser_objects
       (<[k := set_roles admin patron author u]> (CustomUser_objects st)) st) =
  (Return (k, set_roles admin patron author u),
   set_CustomUser_objects
     (<[k := set_roles admin patron author u]> (CustomUser_objects st)) st).
Proof.
  intros Hv.
  destruct (truthy (HTTP_AUTHORIZATION request)) eqn:Htr.
  2: { by rewrite verify_header_no_header in Hv. }
  apply truthy_true in Htr as (tok & Hh & Hne).
  rewrite (verify_header_lookup _ _ _ tok) in Hv by done.
  rewrite (verify_header_lookup _ _ _ tok) by done.
  destruct (ORM.objects_get _ _ (CustomUser_objects st)) as [[k0 u0]|e] eqn:Hget;
    [|by destruct e].
  destruct (check_token now (k0, u0) tok) eqn:Hchk; [|done]. simplify_eq.
  apply objects_get_Return_lookup in Hget as (Hk & Ht & Honly).
  rewrite (objects_get_found _ _ _ k (set_roles admin patron author u)).
  - change (check_token now (k, set_roles admin patron author u) tok)
      with (check_token now (k, u) tok).
    by rewrite Hchk.
  - cbn. by rewrite lookup_insert_eq.
  - done.
  - cbn. intros k' u' Hk' Ht'. destruct (decide (k' = k)) as [->|Hne']; [done|].
    rewrite lookup_insert_ne in Hk' by done. by apply (Honly k' u').
Qed.

End RoundTrip.

(** ** The gate on the sample stores *)

Section GateOnFixture.
Import PasswordResetTokenGenerator Tokens StoreProps Fixture.

Lemma library_tokens_unique : tokens_unique library.
Proof. apply (bool_decide_unpack _ (dec := tokens_unique_dec _)). vm_compute. exact I. Qed.

Lemma registered_tokens_unique : tokens_unique registered.
Proof. apply (bool_decide_unpack _ (dec := tokens_unique_dec _)). vm_compute. exact I. Qed.

Lemma registered_all_null k u :
  CustomUser_objects registered !! k = Some u → token u = None.
Proof.
  unfold registered. cbn. intros Hk.
  repeat (apply lookup_insert_Some in Hk as [[_ <-]|[_ Hk]]; [done|]).
  by apply lookup_singleton_Some in Hk as [_ <-].
Qed.

(** C1 as stated lists three outcomes; a token that no identity stores
    ends in a fourth. *)
Lemma verify_header_fourth_outcome :
  verify_header noon (bearer "no-such-token") registered =
    (Raise InvalidToken, registered) ∧
  InvalidToken ≠ Unauthenticated ∧ InvalidToken ≠ TokenExpired.
Proof. split_and!; [by vm_compute|done..]. Qed.

Lemma verify_header_decision_procedure_witness :
  tokens_unique library ∧
  verify_header noon (bearer alice_token) library =
    (Return (1, set_token (Some alice_token) alice), library).
Proof.
  split; [exact library_tokens_unique|].
  destruct (verify_header_decision_procedure noon (bearer alice_token) library
              library_tokens_unique)
    as [[Hf _]|[(tok & _ & _ & _ & Hv)|[(tok & k & u & _ & _ & _ & _ & _ & Hv)
        |(tok & k & u & _ & _ & _ & _ & _ & Hv & _)]]].
  - vm_compute in Hf. discriminate Hf.
  - vm_compute in Hv. discriminate Hv.
  - rewrite Hv. vm_compute in Hv. injection Hv as <- <-. reflexivity.
  - vm_compute in Hv. discriminate Hv.
Defined.

Lemma issued_token_round_trip_witness :
  verify_header noon (bearer (make_token noon (1, alice))) library =
    (Return (1, set_token (Some (make_token noon (1, alice))) alice), library).
Proof.
  apply (issued_token_round_trip noon 1 alice library).
  - vm_compute. discriminate.
  - vm_compute. reflexivity.
  - vm_compute. reflexivity.
  - vm_compute. reflexivity.
  - exact library_tokens_unique.
  - vm_compute. reflexivity.
Defined.

Lemma token_expiry_is_not_repeatable_witness :
  verify_header (noon + 1) (bearer alice_token) library =
    (Raise TokenExpired, expired (1, set_token (Some alice_token) alice) library) ∧
  ∀ later,
    verify_header later (bearer alice_token)
                  (expired (1, set_token (Some alice_token) alice) library) =
    (Raise InvalidToken, expired (1, set_token (Some alice_token) alice) library).
Proof.
  assert (verify_header (noon + 1) (bearer alice_token) library =
          (Raise TokenExpired, expired (1, set_token (Some alice_token) alice) library))
    as Hv by (vm_compute; reflexivity).
  split; [exact Hv|].
  destruct (token_expiry_is_not_repeatable _ _ _ _ Hv)
    as (tok & k & u & _ & _ & _ & _ & _ & _ & Hlater).
  intros later. exact (proj1 (Hlater later)).
Defined.

Lemma unknown_token_is_invalid_witness :
  "stale" ≠ "" ∧ token_unknown "stale" registered ∧
  verify_header noon (bearer "stale") registered = (Raise InvalidToken, registered).
Proof.
  assert (token_unknown "stale" registered) as Hunk
    by (apply all_null_token_unknown, registered_all_null).
  split_and!; [done|exact Hunk|].
  apply (unknown_token_is_invalid noon "stale" registered); [done|exact Hunk].
Defined.

(** C4 as stated covers any submitted string and any identity without a
    token. With every stored token null, the empty string is answered as
    if no header had been sent; and with Carol's token null, Alice's own
    token still opens the gate for Alice. *)
Lemma empty_token_is_unauthenticated :
  ((∀ k u, CustomUser_objects registered !! k = Some u → token u = None) ∧
   verify_header noon (bearer "") registered = (Raise Unauthenticated, registered) ∧
   Unauthenticated ≠ InvalidToken)
  ∧
  (token <$> CustomUser_objects carol_logged_out !! 3 = Some None ∧
   verify_header noon (bearer alice_token) carol_logged_out =
     (Return (1, set_token (Some alice_token) alice), carol_logged_out)).
Proof.
  split_and!; [exact registered_all_null|by vm_compute|done|by vm_compute..].
Qed.

End GateOnFixture.

(** ** account/views.py: login *)

Section LoginClaims.
Import Tokens StoreProps AccountViews.
Context `{Framework} `{TokenGenerator}.

Lemma set_CustomUser_objects_id (st : Store) k u :
  CustomUser_objects st !! k = Some u →
  set_CustomUser_objects (<[k := u]> (CustomUser_objects st)) st = st.
Proof. intros Hk. destruct st. unfold set_CustomUser_objects. cbn in *. by rewrite insert_id. Qed.

(** The mutation once the row with the email is known. *)
Lemma LoginMutation_mutate_found now info email password st k u :
  ORM.objects_get "CustomUser" (λ u, AccountModels.email u = email)
                  (CustomUser_objects st) = Return (k, u) →
  LoginMutation_mutate now info email password st =
  if check_password password (AccountModels.password u) then
    (Return tt,
     logged_in (if truthy (token u) then (k, u)
                else (k, set_token (Some (make_token now (k, u))) u)) st)
  else (Raise (GraphQLError "Invalid credentials. Please try again."), st).
Proof.
  intros Hget. unfold LoginMutation_mutate. run_resolver. rewrite Hget. cbn.
  destruct (check_password _ _); [|done].
  by destruct (truthy (token u)).
Qed.

(** C8. For the identity registered under the email: when the password
    check passes and no token is stored (null, or the empty string, which
    [not(user.token)] treats alike) the stored token becomes the token
    [make_token] generates at this login and the session is opened; when
    the password check passes and a token is stored (any non-empty
    string, as every issued token is: [issued_token_truthy]), the user
    table is left exactly as it was and only the session is opened; when
    the password check fails nothing changes and the mutation raises. *)
Theorem login_token_lifecycle
    (now : Z) (info : HttpRequest) (email password : string) (st : Store)
    (k : Z) (u : CustomUser) :
  CustomUser_objects st !! k = Some u →
  AccountModels.email u = email →
  (∀ k' u', CustomUser_objects st !! k' = Some u' → AccountModels.email u' = email → k' = k) →
  (check_password password (AccountModels.password u) = true →
   truthy (token u) = false →
   LoginMutation_mutate now info email password st =
     (Return tt, logged_in (k, set_token (Some (make_token now (k, u))) u) st) ∧
   token <$> CustomUser_objects
               (logged_in (k, set_token (Some (make_token now (k, u))) u) st) !! k =
     Some (Some (make_token now (k, u))))
  ∧
  (check_password password (AccountModels.password u) = true →
   truthy (token u) = true →
   LoginMutation_mutate now info email password st = (Return tt, set_session (Some k) st) ∧
   CustomUser_objects (set_session (Some k) st) = CustomUser_objects st)
  ∧
  (check_password password (AccountModels.password u) = false →
   LoginMutation_mutate now info email password st =
     (Raise (GraphQLError "Invalid credentials. Please try again."), st)).
Proof.
  intros Hk He Honly.
  pose proof (objects_get_found (λ u, AccountModels.email u = email)
                "CustomUser" _ k u Hk He Honly) as Hget.
  rewrite (LoginMutation_mutate_found now info email password st k u Hget).
  split_and!.
  - intros -> ->. split; [done|]. unfold logged_in. cbn. by rewrite lookup_insert_eq.
  - intros -> ->. split; [|done]. unfold logged_in. cbn.
    by rewrite set_CustomUser_objects_id.
  - by intros ->.
Qed.

End LoginClaims.

Section LoginOnFixture.
Import Tokens StoreProps AccountViews Fixture.

Lemma login_token_lifecycle_witness :
  LoginMutation_mutate noon (bearer "") "a@x.com" "p1" registered =
    (Return tt, logged_in (1, set_token (Some (make_token noon (1, alice))) alice) registered) ∧
  LoginMutation_mutate (noon + 5000000) (bearer "") "a@x.com" "p1" library =
    (Return tt, set_session (Some 1) library) ∧
  LoginMutation_mutate noon (bearer "") "a@x.com" "wrong" library =
    (Raise (GraphQLError "Invalid credentials. Please try again."), library).
Proof.
  assert (∀ st : Store, CustomUser_objects st = CustomUser_objects registered ∨
                        CustomUser_objects st = CustomUser_objects library →
          ∀ k' u', CustomUser_objects st !! k' = Some u' →
                   AccountModels.email u' = "a@x.com" → k' = 1) as Honly.
  { intros st [-> | ->] k' u' Hk' He; cbn in Hk';
      repeat (apply lookup_insert_Some in Hk' as [[<- <-]|[_ Hk']];
              [by (done || vm_compute in He)|]);
      apply lookup_singleton_Some in Hk' as [<- <-]; by vm_compute in He. }
  split_and!.
  - apply (login_token_lifecycle noon (bearer "") "a@x.com" "p1" registered 1 alice);
      [reflexivity|reflexivity|apply Honly; by left|vm_compute; reflexivity
      |vm_compute; reflexivity].
  - apply (login_token_lifecycle (noon + 5000000) (bearer "") "a@x.com" "p1" library 1
             (set_token (Some alice_token) alice));
      [reflexivity|reflexivity|apply Honly; by right|vm_compute; reflexivity
      |vm_compute; reflexivity].
  - apply (login_token_lifecycle noon (bearer "") "a@x.com" "wrong" library 1
             (set_token (Some alice_token) alice));
      [reflexivity|reflexivity|apply Honly; by right|vm_compute; reflexivity].
Defined.

(** Section 8 of the specification, from the login on: the token issued
    at login opens the gate, logout clears it, and the same token is then
    invalid. *)
Example session_from_login_to_logout :
  let st1 := logged_in (1, set_token (Some alice_token) alice) registered in
  let st2 := set_session None (set_CustomUser_objects
                                 (<[1 := alice]> (CustomUser_objects st1)) st1) in
  LoginMutation_mutate noon (bearer "") "a@x.com" "p1" registered = (Return tt, st1) ∧
  verify_header noon (bearer alice_token) st1 =
    (Return (1, set_token (Some alice_token) alice), st1) ∧
  LogOutMutation_mutate noon (bearer alice_token) st1 = (Return tt, st2) ∧
  token <$> CustomUser_objects st2 !! 1 = Some None ∧
  verify_header noon (bearer alice_token) st2 = (Raise InvalidToken, st2).
Proof. cbv zeta. split_and!; vm_compute; reflexivity. Qed.

End LoginOnFixture.

(** ** genre/views.py *)

Section GenreClaims.
Import Tokens StoreProps GenreViews.
Context `{TokenGenerator}.

(** C9. The three genre mutations ask for nothing but a request that
    passes [verify_header]: whatever the identity it returns and whatever
    that identity's role flags, creating a genre under an unused key adds
    exactly that row, editing an existing genre replaces the fields that
    were given and keeps the others, and deleting an existing genre
    removes its row (and its entries in the book-genre relation). Nothing
    else changes. *)
Theorem genre_mutations_gate_on_token_only
    (now : Z) (info : HttpRequest) (st : Store) (user : Z * CustomUser) :
  verify_header now info st = (Return user, st) →
  (∀ name description genreid,
     Genre_objects st !! genreid = None →
     CreateGenreMutation_mutate now info name description genreid st =
       (Return tt,
        set_Genre_objects
          (<[genreid := GenreModels.mkGenre name description]> (Genre_objects st)) st))
  ∧
  (∀ genreid genre name description,
     Genre_objects st !! genreid = Some genre →
     let edited :=
       GenreModels.mkGenre (default (GenreModels.name genre) name)
                           (default (GenreModels.description genre) description) in
     EditGenreMutation_mutate now info name description genreid st =
       (Return (genreid, edited),
        set_Genre_objects (<[genreid := edited]> (Genre_objects st)) st))
  ∧
  (∀ genreid genre,
     Genre_objects st !! genreid = Some genre →
     DeleteGenreMutation_mutate now info genreid st =
       (Return tt,
        set_Genre_objects (delete genreid (Genre_objects st))
          (set_Book_objects
             ((λ b, BooksModels.set_genres (BooksModels.genres b ∖ {[genreid]}) b)
                <$> Book_objects st) st))).
Proof.
  intros Hv. split_and!.
  - intros name description genreid Hfree.
    unfold CreateGenreMutation_mutate. run_resolver. rewrite Hv.
    unfold ORM.Genre_objects_create. by rewrite Hfree.
  - intros genreid genre name description Hg edited.
    unfold EditGenreMutation_mutate. run_resolver. rewrite Hv.
    unfold ORM.objects_get_pk. by rewrite Hg.
  - intros genreid genre Hg.
    unfold DeleteGenreMutation_mutate. run_resolver. rewrite Hv.
    unfold ORM.objects_get_pk. by rewrite Hg.
Qed.

(** Without a request that passes the gate, the three mutations raise the
    gate's own error and leave the genre table alone. *)
Lemma genre_mutations_refused (now : Z) (info : HttpRequest) (st st' : Store) e :
  verify_header now info st = (Raise e, st') →
  (∀ name description genreid,
     CreateGenreMutation_mutate now info name description genreid st =
       (Raise (GraphQLError (str e)), st'))
  ∧ (∀ name description genreid,
     EditGenreMutation_mutate now info name description genreid st =
       (Raise (GraphQLError (str e)), st'))
  ∧ (∀ genreid,
     DeleteGenreMutation_mutate now info genreid st =
       (Raise (GraphQLError (str e)), st')).
Proof.
  intros Hv. split_and!; intros;
    [unfold CreateGenreMutation_mutate|unfold EditGenreMutation_mutate
    |unfold DeleteGenreMutation_mutate]; run_resolver; by rewrite Hv.
Qed.

End GenreClaims.

Section GenreOnFixture.
Import Tokens StoreProps GenreViews Fixture.

(** Carol has none of the three role flags and a valid token. *)
Lemma genre_mutations_gate_on_token_only_witness :
  (is_admin carol = false ∧ is_patron carol = false ∧ is_author carol = false) ∧
  CreateGenreMutation_mutate noon (bearer carol_token) "Poetry" "Verse" "genre-poetry" library =
    (Return tt,
     set_Genre_objects
       (<["genre-poetry" := GenreModels.mkGenre "Poetry" "Verse"]> (Genre_objects library))
       library) ∧
  EditGenreMutation_mutate noon (bearer carol_token) (Some "SF") None "genre-sf" library =
    (Return ("genre-sf", GenreModels.mkGenre "SF" "Futures"),
     set_Genre_objects
       (<["genre-sf" := GenreModels.mkGenre "SF" "Futures"]> (Genre_objects library))
       library) ∧
  DeleteGenreMutation_mutate noon (bearer carol_token) "genre-crime" library =
    (Return tt,
     set_Genre_objects (delete "genre-crime" (Genre_objects library))
       (set_Book_objects
          ((λ b, BooksModels.set_genres (BooksModels.genres b ∖ {["genre-crime"]}) b)
             <$> Book_objects library) library)).
Proof.
  assert (verify_header noon (bearer carol_token) library =
          (Return (3, set_token (Some carol_token) carol), library)) as Hv
    by (vm_compute; reflexivity).
  destruct (genre_mutations_gate_on_token_only noon (bearer carol_token) library _ Hv)
    as (Hcreate & Hedit & Hdelete).
  split_and!; [done..| | |].
  - apply Hcreate. vm_compute. reflexivity.
  - apply (Hedit "genre-sf" (GenreModels.mkGenre "Science fiction" "Futures")).
    vm_compute. reflexivity.
  - apply (Hdelete "genre-crime" (GenreModels.mkGenre "Crime" "Detectives")).
    vm_compute. reflexivity.
Defined.

End GenreOnFixture.

(** ** account/views.py and account/models.py: how a password is stored *)

Section SignUpFacts.
Import Tokens StoreProps AccountViews.
Context `{Framework}.

Lemma CustomUser_insert_outcome (row : CustomUser) (st : Store) :
  (∃ msg, ORM.CustomUser_insert row st = (Raise (IntegrityError msg), st)) ∨
  (∃ pk, CustomUser_objects st !! pk = None ∧
         ORM.CustomUser_insert row st =
           (Return (pk, row),
            set_CustomUser_objects (<[pk := row]> (CustomUser_objects st)) st)).
Proof.
  unfold ORM.CustomUser_insert.
  case_bool_decide; [left; eauto|].
  case_bool_decide; [left; eauto|].
  right. exists (fresh (dom (CustomUser_objects st))). split; [|done].
  apply not_elem_of_dom, is_fresh.
Qed.

(** C5, on the code. [SignUpMutation.mutate] with matching passwords
    either is refused by the database, changing nothing, or adds one row
    whose [password] column is the argument itself, character for
    character; [CustomUserManager.create_user], the sibling path, stores
    [make_password] of its argument. *)
Theorem signup_stores_the_raw_password
    (info : HttpRequest) (email username first_name last_name password : string)
    (kwargs : CustomUser) (st : Store) :
  ((∃ msg, SignUpMutation_mutate info email username first_name last_name
             password password st = (Raise (GraphQLError msg), st))
   ∨
   (∃ pk row, CustomUser_objects st !! pk = None ∧
      SignUpMutation_mutate info email username first_name last_name
        password password st =
        (Return tt, set_CustomUser_objects (<[pk := row]> (CustomUser_objects st)) st) ∧
      AccountModels.password row = password))
  ∧
  ((∃ e, create_user email (Some password) kwargs st = (Raise e, st))
   ∨
   (∃ pk row, CustomUser_objects st !! pk = None ∧
      create_user email (Some password) kwargs st =
        (Return (pk, row),
         set_CustomUser_objects (<[pk := row]> (CustomUser_objects st)) st) ∧
      AccountModels.password row = make_password (Some password))).
Proof.
  split.
  - unfold SignUpMutation_mutate. rewrite bool_decide_eq_true_2 by done.
    run_resolver.
    destruct (CustomUser_insert_outcome
                (model password email username first_name last_name) st)
      as [(msg & ->)|(pk & Hfree & ->)]; [left; eauto|].
    right. by exists pk, (model password email username first_name last_name).
  - unfold create_user. case_bool_decide; [left; by eexists|].
    destruct (CustomUser_insert_outcome
                (set_password (make_password (Some password))
                   (set_email (normalize_email email) kwargs)) st)
      as [(msg & ->)|(pk & Hfree & ->)]; [left; eauto|].
    right. by eexists pk, _.
Qed.

End SignUpFacts.

Section SignUpOnFixture.
Import Tokens StoreProps AccountViews Fixture.

(** The failing input of C5: Dave signs up with the password [p4]. *)
Example signup_dave :
  SignUpMutation_mutate (bearer "") "d@x.com" "dave" "Dave" "D" "p4" "p4" registered =
    (Return tt,
     set_CustomUser_objects
       (<[4 := model "p4" "d@x.com" "dave" "Dave" "D"]> (CustomUser_objects registered))
       registered) ∧
  AccountModels.password (model "p4" "d@x.com" "dave" "Dave" "D") = "p4" ∧
  make_password (Some "p4") = "pbkdf2_sha256$100000000058145b1".
Proof. split_and!; by vm_compute. Qed.

(** With the stored text not being a hash of [p4], Dave cannot log in. *)
Example signup_dave_cannot_login :
  ∀ st, SignUpMutation_mutate (bearer "") "d@x.com" "dave" "Dave" "D" "p4" "p4" registered =
          (Return tt, st) →
  LoginMutation_mutate noon (bearer "") "d@x.com" "p4" st =
    (Raise (GraphQLError "Invalid credentials. Please try again."), st).
Proof.
  intros st Hs. destruct signup_dave as (Hd & _). rewrite Hd in Hs.
  injection Hs as <-. by vm_compute.
Qed.

End SignUpOnFixture.

(** ** books/views.py: role and ownership guards *)

Section BookGuards.
Import Tokens StoreProps BooksViews.
Context `{TokenGenerator}.

Lemma in_queryset_book_set (author : string * AuthorUser) (st : Store)
    (bookid : string) (book : BooksModels.Book) :
  Book_objects st !! bookid = Some book →
  ORM.in_queryset (bookid, book) (ORM.book_set author st) =
  bool_decide (author.1 ∈ BooksModels.author book).
Proof.
  intros Hb. unfold ORM.in_queryset, ORM.book_set. cbn.
  apply bool_decide_ext. rewrite map_lookup_filter. rewrite Hb. cbn.
  case_guard; split; intros Hx; try done.
  - by apply is_Some_None in Hx.
Qed.


(** X25. The edit mutation never gets past its ownership test: for an
    author, owner or not, it stops at the attribute [book] that
    [AuthorUser] does not have; whatever the request and the arguments,
    it raises a [GraphQLError] and the book table is not modified. *)
Lemma edit_book_never_edits (now : Z) (info : HttpRequest) (st : Store)
    (bookid : string) n p r y a t i d :
  ∃ msg st', EditBookMutation_mutate now info bookid n p r y a t i d st =
               (Raise (GraphQLError msg), st') ∧
             Book_objects st' = Book_objects st.
Proof.
  unfold EditBookMutation_mutate. run_resolver.
  destruct (verify_header now info st) as [[user|e] st'] eqn:Hv.
  2: { eexists _, st'. split; [done|]. by apply verify_header_frame in Hv as (_ & _ & ?). }
  apply verify_header_Return in Hv as (-> & _).
  destruct (is_author user.2); cbn; [|by eexists _, st].
  destruct (ORM.get_object_or_404 "Book" bookid (Book_objects st)); cbn;
    [|by eexists _, st].
  destruct (map_to_list _) as [|? [|? ?]]; cbn; by eexists _, st.
Qed.

(** C6, on the code. For an identity that passes the gate, carries the
    author flag and has an author record, [DeleteBookMutation.mutate]
    applies the ownership test the wrong way round: when the author
    record is NOT among the book's authors the book is deleted and the
    mutation succeeds; when it IS, the mutation raises "User not the
    author of Book" and the book stays. *)
Theorem delete_book_ownership_test_is_inverted
    (now : Z) (info : HttpRequest) (st : Store) (user : Z * CustomUser)
    (author : string * AuthorUser) (bookid : string) (book : BooksModels.Book) :
  verify_header now info st = (Return user, st) →
  is_author user.2 = true →
  ORM.authoruser user st = (Return author, st) →
  Book_objects st !! bookid = Some book →
  (author.1 ∉ BooksModels.author book →
   DeleteBookMutation_mutate now info bookid st =
     (Return tt, set_Book_objects (delete bookid (Book_objects st)) st))
  ∧
  (author.1 ∈ BooksModels.author book →
   DeleteBookMutation_mutate now info bookid st =
     (Raise (GraphQLError "User not the author of Book"), st)).
Proof.
  intros Hv Hau Hrel Hb.
  assert (∀ owned : bool,
            bool_decide (author.1 ∈ BooksModels.author book) = owned →
            DeleteBookMutation_mutate now info bookid st =
            if owned then (Raise (GraphQLError "User not the author of Book"), st)
            else (Return tt, set_Book_objects (delete bookid (Book_objects st)) st))
    as Hrun.
  { intros owned Howned. unfold DeleteBookMutation_mutate. run_resolver.
    rewrite Hv. unfold ORM.get_object_or_404. rewrite Hb, Hau. cbn.
    unfold ORM.authoruser, ORM.query in Hrel. cbn in Hrel.
    injection Hrel as Hrel. rewrite Hrel.
    rewrite (in_queryset_book_set author st bookid book Hb), Howned.
    by destruct owned. }
  split; intros Hin.
  - by rewrite (Hrun false) by by apply bool_decide_eq_false_2.
  - by rewrite (Hrun true) by by apply bool_decide_eq_true_2.
Qed.

End BookGuards.

Section BookGuardsOnFixture.
Import Tokens StoreProps BooksViews Fixture.

(** The failing input of C6: Bob, an author who did not write the book,
    deletes it; Alice, who wrote it, may not. *)
Lemma delete_book_ownership_test_is_inverted_witness :
  DeleteBookMutation_mutate noon (bearer bob_token) "book-dune" library =
    (Return tt, set_Book_objects (delete "book-dune" (Book_objects library)) library) ∧
  DeleteBookMutation_mutate noon (bearer alice_token) "book-dune" library =
    (Raise (GraphQLError "User not the author of Book"), library).
Proof.
  split.
  - apply (delete_book_ownership_test_is_inverted noon (bearer bob_token) library
             (2, set_token (Some bob_token) bob)
             ("author-bob", mkAuthorUser 2 "1980-01-01" "NG") "book-dune" dune);
      [vm_compute; reflexivity..|].
    cbn. intros Hin. apply elem_of_singleton in Hin. discriminate Hin.
  - apply (delete_book_ownership_test_is_inverted noon (bearer alice_token) library
             (1, set_token (Some alice_token) alice)
             ("author-alice", mkAuthorUser 1 "1970-01-01" "NG") "book-dune" dune);
      [vm_compute; reflexivity..|].
    cbn. by apply elem_of_singleton.
Defined.

Example edit_by_the_owner_fails :
  EditBookMutation_mutate noon (bearer alice_token) "book-dune"
    PyNone PyNone PyNone PyNone PyNone (PyStr "Dune Messiah") PyNone PyNone library =
  (Raise (GraphQLError "'AuthorUser' object has no attribute 'book'"), library).
Proof. by vm_compute. Qed.

End BookGuardsOnFixture.

(** ** books/views.py: the relation mutations *)

Section RelationMutations.
Import Tokens StoreProps BooksViews.
Context `{TokenGenerator}.

(** [AddToBook.mutate] never returns: it raises at the gate, at the role
    test, or at the unbound name [bookid]. *)
Lemma AddToBook_mutate_raises (now : Z) (info : HttpRequest) (st : Store) :
  ∃ msg st', AddToBook_mutate now info st = (Raise (GraphQLError msg), st') ∧
             Book_objects st' = Book_objects st.
Proof.
  unfold AddToBook_mutate, unbound_name. run_resolver.
  destruct (verify_header now info st) as [[user|e] st'] eqn:Hv.
  2: { eexists _, st'. split; [done|]. by apply verify_header_frame in Hv as (_ & _ & ?). }
  apply verify_header_Return in Hv as (-> & _).
  destruct (is_author user.2); cbn; by eexists _, st.
Qed.

Lemma AddToBook_mutate_author (now : Z) (info : HttpRequest) (st : Store)
    (user : Z * CustomUser) :
  verify_header now info st = (Return user, st) →
  AddToBook_mutate now info st =
  (Raise (GraphQLError (if is_author user.2 then "name 'bookid' is not defined"
                        else "User is not an author")), st).
Proof.
  intros Hv. unfold AddToBook_mutate, unbound_name. run_resolver. rewrite Hv.
  by destruct (is_author user.2).
Qed.

(** [super().mutate(info)] never returns either, and leaves the book
    table alone; without an instance it does not even reach the gate. *)
Lemma super_mutate_raises (self : receiver) (now : Z) (info : HttpRequest)
    (st : Store) :
  ∃ e st', super_mutate self now info st = (Raise e, st') ∧
           Book_objects st' = Book_objects st ∧
           (self = RootValue →
            e = AttributeError "'super' object has no attribute 'mutate'" ∧ st' = st).
Proof.
  destruct self; cbn.
  - eexists _, st. by split_and!.
  - destruct (AddToBook_mutate_raises now info st) as (msg & st' & Hr & Hb).
    exists (GraphQLError msg), st'. by split_and!.
Qed.

Lemma after_super_mutate_returns_error (self : receiver) (now : Z)
    (info : HttpRequest) (st : Store)
    (rest : string * BooksModels.Book → M resolved) :
  returns_error (try_return_error (super_mutate self now info ≫= rest)) st ∧
  (self = RootValue →
   try_return_error (super_mutate self now info ≫= rest) st =
     (Return (ErrorValue (GraphQLError "'super' object has no attribute 'mutate'")), st)).
Proof.
  destruct (super_mutate_raises self now info st) as (e & st' & Hr & Hb & Hroot).
  split.
  - exists (str e), st'. split; [|done].
    unfold try_return_error, try_except, mbind, M_bind. by rewrite Hr.
  - intros Hself. destruct (Hroot Hself) as [-> ->].
    unfold try_return_error, try_except, mbind, M_bind. by rewrite Hr.
Qed.

(** C7, on the code. None of the four relation mutations ever succeeds:
    whatever sits in [self], whatever the store, the request and the
    arguments, each hands back an error object with the book table
    unchanged. Removing a relation that is absent and adding one that is
    present are therefore errors as well, not silent successes. Called
    the way the GraphQL layer calls them, with [None] for [self], all
    four stop at [super().mutate] before the gate: the error object is
    the same for every request and the whole store is left as it was. *)
Theorem relation_mutations_never_succeed
    (self : receiver) (now : Z) (info : HttpRequest)
    (bookid authorid genreid : string) (st : Store) :
  (returns_error (AddAuthorToBookMutation_mutate self now info bookid authorid) st ∧
   returns_error (AddGenreToBookMutation_mutate self now info bookid genreid) st ∧
   returns_error (RemoveAuthorFromBookMutation_mutate self now info bookid authorid) st ∧
   returns_error (RemoveGenreFromBookMutation_mutate self now info bookid genreid) st) ∧
  (AddAuthorToBookMutation_mutate RootValue now info bookid authorid st =
     (Return (ErrorValue (GraphQLError "'super' object has no attribute 'mutate'")), st) ∧
   AddGenreToBookMutation_mutate RootValue now info bookid genreid st =
     (Return (ErrorValue (GraphQLError "'super' object has no attribute 'mutate'")), st) ∧
   RemoveAuthorFromBookMutation_mutate RootValue now info bookid authorid st =
     (Return (ErrorValue (GraphQLError "'super' object has no attribute 'mutate'")), st) ∧
   RemoveGenreFromBookMutation_mutate RootValue now info bookid genreid st =
     (Return (ErrorValue (GraphQLError "'super' object has no attribute 'mutate'")), st)).
Proof.
  split.
  - split_and!; exact (proj1 (after_super_mutate_returns_error self now info st _)).
  - split_and!;
      exact (proj2 (after_super_mutate_returns_error RootValue now info st _) eq_refl).
Qed.

End RelationMutations.

Section RelationMutationsOnFixture.
Import Tokens StoreProps BooksViews Fixture.

(** The failing input of C7: Alice, the author of the book, removes a
    genre that is not on it, and adds the author who is already on it.
    Through the GraphQL layer both stop at [super()]; called on an
    instance both stop at the unbound name [bookid]. *)
Example remove_absent_genre_is_an_error :
  RemoveGenreFromBookMutation_mutate RootValue noon (bearer alice_token)
    "book-dune" "genre-crime" library =
    (Return (ErrorValue (GraphQLError "'super' object has no attribute 'mutate'")),
     library) ∧
  AddAuthorToBookMutation_mutate RootValue noon (bearer alice_token)
    "book-dune" "author-alice" library =
    (Return (ErrorValue (GraphQLError "'super' object has no attribute 'mutate'")),
     library) ∧
  RemoveGenreFromBookMutation_mutate MutationObject noon (bearer alice_token)
    "book-dune" "genre-crime" library =
    (Return (ErrorValue (GraphQLError "name 'bookid' is not defined")), library) ∧
  AddAuthorToBookMutation_mutate MutationObject noon (bearer alice_token)
    "book-dune" "author-alice" library =
    (Return (ErrorValue (GraphQLError "name 'bookid' is not defined")), library).
Proof. split_and!; by vm_compute. Qed.

(** With [None] for [self] an expired token is not even looked at: the
    store keeps it, where a call on an instance clears it at the gate. *)
Example relation_mutation_skips_the_gate :
  RemoveGenreFromBookMutation_mutate RootValue (noon + 1) (bearer alice_token)
    "book-dune" "genre-crime" library =
    (Return (ErrorValue (GraphQLError "'super' object has no attribute 'mutate'")),
     library) ∧
  RemoveGenreFromBookMutation_mutate MutationObject (noon + 1) (bearer alice_token)
    "book-dune" "genre-crime" library =
    (Return (ErrorValue (GraphQLError "Token has Expired")),
     expired (1, set_token (Some alice_token) alice) library).
Proof. split; by vm_compute. Qed.

End RelationMutationsOnFixture.

(** ** books/models.py: [Book.edit_book] *)

Section EditBook.
Import BooksModels BooksViews.
Implicit Types (self : Book) (kwargs : gmap string value).

Lemma kwargs_has_false k kwargs : k ∉ dom kwargs → kwargs_has k kwargs = false.
Proof. intros Hk. unfold kwargs_has. by rewrite bool_decide_eq_false_2. Qed.

Lemma kwargs_has_true k kwargs : k ∈ dom kwargs → kwargs_has k kwargs = true.
Proof. intros Hk. unfold kwargs_has. by rewrite bool_decide_eq_true_2. Qed.

Lemma kwargs_get_absent k kwargs : k ∉ dom kwargs → kwargs_get k kwargs = PyNone.
Proof.
  intros Hk. unfold kwargs_get. apply not_elem_of_dom in Hk. by rewrite Hk.
Qed.

(** Absent keyword, untouched attribute. *)
Lemma edit_book_frame self kwargs k :
  k ∉ dom kwargs → attribute k (edit_book self kwargs) = attribute k self.
Proof.
  intros Hk. unfold attribute.
  repeat (case_bool_decide as Hd;
          [subst k; cbn; by rewrite (kwargs_has_false _ _ Hk)|clear Hd]).
  done.
Qed.

(** With [title] among the keywords, the new title is whatever sits
    under the key [title`]. *)
Lemma edit_book_title_reads_backtick self kwargs :
  "title" ∈ dom kwargs → title (edit_book self kwargs) = kwargs_get "title`" kwargs.
Proof. intros Hk. cbn. by rewrite (kwargs_has_true _ _ Hk). Qed.

(** C10, on the code. For every call of [edit_book]: an attribute whose
    keyword is absent from the mapping keeps its value, and the two
    relations are never touched; when the mapping has the key [title],
    the title afterwards is the value under the key [title`], hence
    [None] whenever that second key is absent, as it is in the mapping
    the edit-book mutation builds; and the value supplied under [title]
    never reaches the title. The line that assigns the title reads the
    key with a stray backtick, where the seven other lines read their own
    key. *)
Theorem edit_book_frame_and_title self kwargs :
  (∀ k, k ∉ dom kwargs → attribute k (edit_book self kwargs) = attribute k self) ∧
  (author (edit_book self kwargs) = author self ∧
   genres (edit_book self kwargs) = genres self) ∧
  ("title" ∈ dom kwargs →
   title (edit_book self kwargs) = kwargs_get "title`" kwargs ∧
   ("title`" ∉ dom kwargs → title (edit_book self kwargs) = PyNone) ∧
   (∀ supplied,
      title (edit_book self (<["title" := supplied]> kwargs)) =
      title (edit_book self kwargs))) ∧
  (∀ t i d n a r p b, title (edit_book self (all_query t i d n a r p b)) = PyNone).
Proof.
  split_and!.
  - intros k. apply edit_book_frame.
  - done.
  - done.
  - intros Ht. split_and!.
    + by apply edit_book_title_reads_backtick.
    + intros Hb. rewrite edit_book_title_reads_backtick by done.
      by apply kwargs_get_absent.
    + intros supplied. rewrite !edit_book_title_reads_backtick; [|done|set_solver].
      unfold kwargs_get. by rewrite lookup_insert_ne.
  - intros. rewrite edit_book_title_reads_backtick.
    + apply kwargs_get_absent, not_elem_of_dom. reflexivity.
    + apply elem_of_dom. eexists. reflexivity.
Qed.

End EditBook.

Section EditBookOnFixture.
Import BooksModels BooksViews Fixture.

(** The failing input of C10: a mapping with both keys. The title becomes
    the value under [title`], neither [None] nor the value under [title]. *)
Lemma edit_book_title_from_backtick_key :
  "title" ∈ dom ({["title" := PyStr "A"; "title`" := PyStr "B"]} : gmap string value) ∧
  title (edit_book dune {["title" := PyStr "A"; "title`" := PyStr "B"]}) = PyStr "B" ∧
  PyStr "B" ≠ PyNone.
Proof. split_and!; [set_solver|by vm_compute|done]. Qed.

Lemma edit_book_frame_and_title_witness :
  attribute "isbn" (edit_book dune {["title" := PyStr "Dune Messiah"]}) =
    Some (PyStr "0441013597") ∧
  title (edit_book dune {["title" := PyStr "Dune Messiah"]}) = PyNone.
Proof.
  destruct (edit_book_frame_and_title dune {["title" := PyStr "Dune Messiah"]})
    as (Hframe & _ & Htitle & _).
  split.
  - rewrite Hframe; [reflexivity|]. rewrite dom_singleton_L.
    intros Hin. apply elem_of_singleton in Hin. discriminate Hin.
  - destruct Htitle as (_ & Hnone & _).
    + rewrite dom_singleton_L. by apply elem_of_singleton.
    + apply Hnone. rewrite dom_singleton_L.
      intros Hin. apply elem_of_singleton in Hin. discriminate Hin.
Defined.

End EditBookOnFixture.

(** * Further properties of the code *)

(** ** More about the gate *)

Section GateEffects.
Import Tokens StoreProps Integrity.
Context `{TokenGenerator}.

(** A returned identity is the only row that stores the presented token. *)
Lemma verify_header_Return_only (now : Z) (request : HttpRequest) (st st' : Store)
    (user : Z * CustomUser) (token : string) :
  HTTP_AUTHORIZATION request = Some token →
  verify_header now request st = (Return user, st') →
  ∀ k' u', CustomUser_objects st !! k' = Some u' →
           AccountModels.token u' = Some token → k' = user.1.
Proof.
  intros Hh Hv.
  destruct (truthy (HTTP_AUTHORIZATION request)) eqn:Htr.
  2: { by rewrite verify_header_no_header in Hv. }
  apply truthy_true in Htr as (tok & Hh' & Hne). simplify_eq.
  rewrite (verify_header_lookup _ _ _ token) in Hv by done.
  destruct (ORM.objects_get _ _ _) as [[k u]|e] eqn:Hget; [|by destruct e].
  destruct (check_token now (k, u) token); [|done]. simplify_eq.
  by apply objects_get_Return_lookup in Hget as (_ & _ & Honly).
Qed.

(** The gate reads the user table only: a store with the same user table
    lets the same request through. *)
Lemma verify_header_Return_same_users (now : Z) (request : HttpRequest)
    (st st2 : Store) (user : Z * CustomUser) :
  verify_header now request st = (Return user, st) →
  CustomUser_objects st2 = CustomUser_objects st →
  verify_header now request st2 = (Return user, st2).
Proof.
  intros Hv Hsame.
  destruct (truthy (HTTP_AUTHORIZATION request)) eqn:Htr.
  2: { by rewrite verify_header_no_header in Hv. }
  apply truthy_true in Htr as (tok & Hh & Hne).
  rewrite (verify_header_lookup _ _ _ tok) in Hv by done.
  rewrite (verify_header_lookup _ _ _ tok), Hsame by done.
  destruct (ORM.objects_get _ _ _) as [user'|e]; [|by destruct e].
  destruct (check_token now user' tok); by simplify_eq.
Qed.

(** X1. Whatever [verify_header] answers, it leaves the author, genre and
    book tables alone, keeps a store it returns from or refuses without a
    lookup hit exactly as it was, and in the user table does at most one
    thing: clear the stored token of the row that stores the presented
    token. It never sets a token and never touches another row. *)
Theorem verify_header_only_clears_a_token
    (now : Z) (request : HttpRequest) (st st' : Store) (r : outcome (Z * CustomUser)) :
  verify_header now request st = (r, st') →
  AuthorUser_objects st' = AuthorUser_objects st ∧
  Genre_objects st' = Genre_objects st ∧
  Book_objects st' = Book_objects st ∧
  (r ≠ Raise TokenExpired → st' = st) ∧
  (∀ k, row_kept_or_token_set None (CustomUser_objects st !! k)
                              (CustomUser_objects st' !! k)) ∧
  (∀ k u, CustomUser_objects st !! k = Some u →
          AccountModels.token u ≠ HTTP_AUTHORIZATION request →
          CustomUser_objects st' !! k = Some u).
Proof.
  intros Hv.
  assert (st' = st ∨ ∃ k u, r = Raise TokenExpired ∧ st' = expired (k, u) st ∧
            CustomUser_objects st !! k = Some u ∧
            AccountModels.token u = HTTP_AUTHORIZATION request) as Hcases.
  { destruct (truthy (HTTP_AUTHORIZATION request)) eqn:Htr.
    2: { rewrite verify_header_no_header in Hv by done. left. by simplify_eq. }
    apply truthy_true in Htr as (tok & Hh & Hne).
    rewrite (verify_header_lookup _ _ _ tok) in Hv by done.
    destruct (ORM.objects_get _ _ _) as [[k u]|e] eqn:Hget.
    - destruct (check_token now (k, u) tok); simplify_eq; [by left|].
      right. exists k, u. apply objects_get_Return_lookup in Hget as (Hk & Ht & _).
      by rewrite Hh.
    - left. destruct e; by simplify_eq. }
  destruct Hcases as [->|(k & u & -> & -> & Hk & Ht)].
  { split_and!; try done. intros k. by left. }
  destruct (expired_spec k u st) as (Hk' & _ & _ & Hother & Ha & Hg & Hb).
  split_and!; try done.
  - intros k0. destruct (decide (k0 = k)) as [->|Hne].
    + right. exists u. by rewrite Hk, Hk'.
    + left. by apply Hother.
  - intros k0 u0 Hk0 Hne. destruct (decide (k0 = k)) as [->|Hne'].
    + simplify_eq.
    + by rewrite Hother.
Qed.

(** X2. The gate keeps the unique-token constraint: whatever it answers,
    the store it leaves behind has no two rows sharing a token if the
    store it started from had none. *)
Theorem verify_header_keeps_tokens_unique
    (now : Z) (request : HttpRequest) (st st' : Store) (r : outcome (Z * CustomUser)) :
  tokens_unique st →
  verify_header now request st = (r, st') →
  tokens_unique st'.
Proof.
  intros Huniq Hv.
  destruct (truthy (HTTP_AUTHORIZATION request)) eqn:Htr.
  2: { rewrite verify_header_no_header in Hv by done. by simplify_eq. }
  apply truthy_true in Htr as (tok & Hh & Hne).
  rewrite (verify_header_lookup _ _ _ tok) in Hv by done.
  destruct (ORM.objects_get _ _ _) as [[k u]|e].
  - destruct (check_token now (k, u) tok); simplify_eq; [done|].
    by apply expired_tokens_unique.
  - destruct e; by simplify_eq.
Qed.

End GateEffects.

Section GateEffectsOnFixture.
Import Tokens StoreProps Integrity Fixture.

(** One second after [noon] Carol's token is refused: her row loses it,
    Alice's row and the book table stay. *)
Lemma verify_header_only_clears_a_token_witness :
  verify_header (noon + 1) (bearer carol_token) library =
    (Raise TokenExpired, carol_logged_out) ∧
  Book_objects carol_logged_out = Book_objects library ∧
  CustomUser_objects carol_logged_out !! 1 = Some (set_token (Some alice_token) alice).
Proof.
  assert (verify_header (noon + 1) (bearer carol_token) library =
            (Raise TokenExpired, carol_logged_out)) as Hv by (vm_compute; reflexivity).
  destruct (verify_header_only_clears_a_token _ _ _ _ _ Hv)
    as (_ & _ & Hbooks & _ & _ & Hother).
  split_and!; [exact Hv|exact Hbooks|].
  apply Hother; [vm_compute; reflexivity|].
  vm_compute. intros Heq. discriminate Heq.
Defined.

Lemma verify_header_keeps_tokens_unique_witness :
  verify_header (noon + 1) (bearer carol_token) library =
    (Raise TokenExpired, carol_logged_out) ∧
  tokens_unique carol_logged_out.
Proof.
  assert (verify_header (noon + 1) (bearer carol_token) library =
            (Raise TokenExpired, carol_logged_out)) as Hv by (vm_compute; reflexivity).
  split; [exact Hv|].
  exact (verify_header_keeps_tokens_unique _ _ _ _ _ library_tokens_unique Hv).
Defined.

End GateEffectsOnFixture.

(** ** How long an issued token lives *)

Section TokenLifetime.
Import PasswordResetTokenGenerator Tokens StoreProps.
Context `{Framework}.
#[local] Existing Instance token_generator.

(** The text that is hashed for a user at a clock reading. *)
Lemma _make_hash_value_text (now : Z) (user : Z * CustomUser) (timestamp : Z) :
  _make_hash_value now user timestamp =
  text_type_int user.1 +:+ text_type_datetime (now + timedelta_seconds 10) +:+
  text_type_bool (is_active user.2).
Proof. done. Qed.

(** A token issued at one clock reading is accepted at another only if
    the two hashes agree. *)
Lemma check_token_issued_elsewhere (now later : Z) (user : Z * CustomUser) :
  check_token later user (make_token now user) = true →
  salted_hmac (_make_hash_value later user 0) = salted_hmac (_make_hash_value now user 0).
Proof.
  rewrite token_generator_check_token, token_generator_make_token.
  intros (ts_b36 & hash & ts & Hs & _ & _ & -> & _)%check_token_true.
  unfold PasswordResetTokenGenerator.make_token, _make_token_with_timestamp in Hs.
  rewrite append_cons, append_nil in Hs.
  apply split_two_parts in Hs as [_ Heq]. exact Heq.
Qed.

(** X3. The stored token dies with the clock reading it was issued at:
    when the identity's stored token is the one [make_token] produced at
    [now], presenting it at a reading [later] whose hash input (primary
    key, text of later + 10 s, active flag) hashes differently makes
    [verify_header] raise [TokenExpired], clear the stored token and end
    the session. No time limit is involved: one microsecond suffices. *)
Theorem issued_token_expires_off_its_instant
    (now later : Z) (k : Z) (u : CustomUser) (st : Store) :
  tokens_unique st →
  CustomUser_objects st !! k = Some (set_token (Some (make_token now (k, u))) u) →
  salted_hmac (text_type_int k +:+ text_type_datetime (later + timedelta_seconds 10) +:+
               text_type_bool (is_active u)) ≠
  salted_hmac (text_type_int k +:+ text_type_datetime (now + timedelta_seconds 10) +:+
               text_type_bool (is_active u)) →
  verify_header later {| HTTP_AUTHORIZATION := Some (make_token now (k, u)) |} st =
    (Raise TokenExpired, expired (k, set_token (Some (make_token now (k, u))) u) st).
Proof.
  intros Huniq Hk Hdiff.
  rewrite (verify_header_found _ _ _ (make_token now (k, u)) k
             (set_token (Some (make_token now (k, u))) u)); try done.
  - rewrite check_token_set_token.
    destruct (check_token later (k, u) (make_token now (k, u))) eqn:Hchk; [|done].
    by apply check_token_issued_elsewhere in Hchk.
  - rewrite token_generator_make_token.
    unfold PasswordResetTokenGenerator.make_token, _make_token_with_timestamp.
    destruct (int_to_base36 _); discriminate.
Qed.

(** X4. The hash does not cover the timestamp part of a token: because
    [_make_hash_value] overwrites its [timestamp] argument, a token made
    of ANY timestamp that prints and parses and is not older than the
    timeout, followed by the hash for the present clock reading, is
    accepted by [check_token] at that reading. *)
Theorem check_token_accepts_any_timestamp
    (now : Z) (user : Z * CustomUser) (timestamp : Z) :
  count "-" (int_to_base36 timestamp) = 0%nat →
  count "-" (salted_hmac (_make_hash_value now user 0)) = 0%nat →
  base36_to_int (int_to_base36 timestamp) = Some timestamp →
  _num_seconds now - timestamp ≤ PASSWORD_RESET_TIMEOUT →
  check_token now user
    (int_to_base36 timestamp +:+ "-" +:+ salted_hmac (_make_hash_value now user 0)) = true.
Proof.
  intros Hts Hhash Hparse Hrecent.
  rewrite token_generator_check_token. unfold PasswordResetTokenGenerator.check_token.
  rewrite bool_decide_eq_false_2.
  2: { destruct (int_to_base36 _); discriminate. }
  rewrite append_cons, append_nil, split_app_sep, split_no_sep by done.
  rewrite Hparse. unfold _make_token_with_timestamp.
  rewrite bool_decide_eq_true_2 by done.
  apply negb_true_iff, Z.ltb_ge. lia.
Qed.

End TokenLifetime.

Section TokenLifetimeOnFixture.
Import PasswordResetTokenGenerator Tokens StoreProps Fixture.

(** Alice's token of [noon], presented one second later. *)
Lemma issued_token_expires_off_its_instant_witness :
  verify_header (noon + 1) (bearer alice_token) library =
    (Raise TokenExpired, expired (1, set_token (Some alice_token) alice) library).
Proof.
  apply (issued_token_expires_off_its_instant noon (noon + 1) 1 alice library).
  - apply library_tokens_unique.
  - vm_compute. reflexivity.
  - vm_compute. intros Heq. discriminate Heq.
Defined.

(** A token made up from yesterday's timestamp and today's hash. *)
Lemma check_token_accepts_any_timestamp_witness :
  _num_seconds noon - 725803200 = 86400 ∧
  check_token noon (1, alice)
    (int_to_base36 725803200 +:+ "-" +:+
     salted_hmac (_make_hash_value noon (1, alice) 0)) = true.
Proof.
  split; [vm_compute; reflexivity|].
  apply (check_token_accepts_any_timestamp noon (1, alice) 725803200).
  - vm_compute. reflexivity.
  - vm_compute. reflexivity.
  - vm_compute. reflexivity.
  - vm_compute. intros Hgt. discriminate Hgt.
Defined.

End TokenLifetimeOnFixture.

(** ** account/views.py: logout *)

Section LogOutFacts.
Import Tokens StoreProps AccountViews.
Context `{TokenGenerator}.

Lemma LogOutMutation_mutate_Return (now : Z) (info : HttpRequest) (st : Store)
    (user : Z * CustomUser) :
  verify_header now info st = (Return user, st) →
  LogOutMutation_mutate now info st = (Return tt, expired user st).
Proof. intros Hv. unfold LogOutMutation_mutate. run_resolver. by rewrite Hv. Qed.

Lemma LogOutMutation_mutate_Raise (now : Z) (info : HttpRequest) (st st' : Store) e :
  verify_header now info st = (Raise e, st') →
  LogOutMutation_mutate now info st = (Raise (GraphQLError (str e)), st').
Proof. intros Hv. unfold LogOutMutation_mutate. run_resolver. by rewrite Hv. Qed.

(** X5. Logout always logs out. When the presented token is the stored
    token of an identity, [LogOutMutation.mutate] leaves that identity
    without a stored token and the session closed, whether it returns
    (token accepted) or raises "Token has Expired" (token refused by
    [check_token]); every other row is untouched. A second logout with
    the same token, at any clock reading, raises "Authorization Token is
    Invalid" and changes nothing. *)
Theorem logout_always_clears_the_token
    (now : Z) (info : HttpRequest) (st : Store) (token : string)
    (k : Z) (u : CustomUser) :
  tokens_unique st →
  HTTP_AUTHORIZATION info = Some token → token ≠ "" →
  CustomUser_objects st !! k = Some u → AccountModels.token u = Some token →
  (LogOutMutation_mutate now info st = (Return tt, expired (k, u) st) ∨
   LogOutMutation_mutate now info st =
     (Raise (GraphQLError "Token has Expired"), expired (k, u) st)) ∧
  AccountModels.token <$> CustomUser_objects (expired (k, u) st) !! k = Some None ∧
  session (expired (k, u) st) = None ∧
  (∀ k', k' ≠ k →
     CustomUser_objects (expired (k, u) st) !! k' = CustomUser_objects st !! k') ∧
  ∀ later,
    LogOutMutation_mutate later info (expired (k, u) st) =
      (Raise (GraphQLError "Authorization Token is Invalid"), expired (k, u) st).
Proof.
  intros Huniq Hh Hne Hk Ht.
  pose proof (verify_header_found now info st token k u Hh Hne Hk Ht Huniq) as Hv.
  destruct (expired_spec k u st) as (Hk' & _ & Hsess & Hother & _).
  split_and!; try done.
  - destruct (check_token now (k, u) token).
    + left. by apply LogOutMutation_mutate_Return.
    + right. by apply (LogOutMutation_mutate_Raise _ _ _ _ TokenExpired).
  - by rewrite Hk'.
  - intros later.
    apply (LogOutMutation_mutate_Raise _ _ _ _ InvalidToken).
    apply (verify_header_unknown _ _ _ token); [done..|].
    apply expired_token_unknown; [done|].
    intros k' u' Hk'' Ht'. by apply (Huniq k' k u' u token).
Qed.

(** X6. Logout with nothing to log out: without an authorization value
    (or with an empty one) the mutation raises "User has not Login", with
    a token no identity stores it raises "Authorization Token is
    Invalid"; in both cases the store, the session included, is left as
    it was. *)
Theorem logout_without_a_stored_token (now : Z) (info : HttpRequest) (st : Store) :
  (truthy (HTTP_AUTHORIZATION info) = false →
   LogOutMutation_mutate now info st = (Raise (GraphQLError "User has not Login"), st))
  ∧
  (∀ token, HTTP_AUTHORIZATION info = Some token → token ≠ "" →
            token_unknown token st →
   LogOutMutation_mutate now info st =
     (Raise (GraphQLError "Authorization Token is Invalid"), st)).
Proof.
  split.
  - intros Hf. apply (LogOutMutation_mutate_Raise _ _ _ _ Unauthenticated).
    by apply verify_header_no_header.
  - intros token Hh Hne Hunk. apply (LogOutMutation_mutate_Raise _ _ _ _ InvalidToken).
    by apply (verify_header_unknown _ _ _ token).
Qed.

End LogOutFacts.

(** ** account/views.py: more about login *)

Section LoginFacts.
Import Tokens StoreProps AccountViews.
Context `{Framework} `{TokenGenerator}.

Lemma LoginMutation_mutate_Raise (now : Z) (info : HttpRequest)
    (email password : string) (st : Store) e :
  ORM.objects_get "CustomUser" (λ u, AccountModels.email u = email)
                  (CustomUser_objects st) = Raise e →
  LoginMutation_mutate now info email password st = (Raise e, st).
Proof.
  intros Hget. unfold LoginMutation_mutate. run_resolver. by rewrite Hget.
Qed.

(** X7. Logging in with an email that no identity has does not raise the
    mutation's own "Invalid credentials" error: the lookup's
    [DoesNotExist] escapes as it is, and the store is unchanged. *)
Theorem login_with_unknown_email
    (now : Z) (info : HttpRequest) (email password : string) (st : Store) :
  (∀ k u, CustomUser_objects st !! k = Some u → AccountModels.email u ≠ email) →
  LoginMutation_mutate now info email password st =
    (Raise (DoesNotExist "CustomUser matching query does not exist."), st).
Proof.
  intros Hnone. apply LoginMutation_mutate_Raise.
  by rewrite objects_get_none.
Qed.

(** X8. Whatever [LoginMutation.mutate] answers, it leaves the author,
    genre and book tables alone, and every row of the user table is what
    it was, except that the row with the given email, when its password
    is accepted and it stores no token, gets the token generated at this
    login. No password, flag, email or other row is ever written. *)
Theorem login_writes_one_token_at_most
    (now : Z) (info : HttpRequest) (email password : string) (st st' : Store)
    (r : outcome unit) :
  LoginMutation_mutate now info email password st = (r, st') →
  AuthorUser_objects st' = AuthorUser_objects st ∧
  Genre_objects st' = Genre_objects st ∧
  Book_objects st' = Book_objects st ∧
  (r ≠ Return tt → st' = st) ∧
  ∀ k, CustomUser_objects st' !! k = CustomUser_objects st !! k ∨
       ∃ u, CustomUser_objects st !! k = Some u ∧
            AccountModels.email u = email ∧
            check_password password (AccountModels.password u) = true ∧
            truthy (token u) = false ∧
            CustomUser_objects st' !! k =
              Some (set_token (Some (make_token now (k, u))) u).
Proof.
  intros Hrun.
  destruct (ORM.objects_get "CustomUser" (λ u, AccountModels.email u = email)
              (CustomUser_objects st)) as [[k u]|e] eqn:Hget.
  2: { rewrite (LoginMutation_mutate_Raise _ _ _ _ _ e Hget) in Hrun. simplify_eq.
       split_and!; try done. intros k. by left. }
  rewrite (LoginMutation_mutate_found _ _ _ _ _ k u Hget) in Hrun.
  apply objects_get_Return_lookup in Hget as (Hk & He & _).
  destruct (check_password password (AccountModels.password u)) eqn:Hpw.
  2: { simplify_eq. split_and!; try done. intros k0. by left. }
  destruct (truthy (token u)) eqn:Htr; simplify_eq; unfold logged_in; cbn.
  - split_and!; try done. intros k0. left.
    destruct (decide (k0 = k)) as [->|Hne].
    + by rewrite lookup_insert_eq.
    + by rewrite lookup_insert_ne.
  - split_and!; try done. intros k0.
    destruct (decide (k0 = k)) as [->|Hne].
    + right. exists u. by rewrite lookup_insert_eq.
    + left. by rewrite lookup_insert_ne.
Qed.

End LoginFacts.

Section LoginTwice.
Import Tokens StoreProps AccountViews.
Context `{Framework}.
#[local] Existing Instance token_generator.

(** X9. Login does not rotate the token. After a login that succeeds for
    an identity, the stored token is non-empty, and every further login
    with the same email and password, from any request and at any clock
    reading, succeeds and leaves the store exactly as the first login
    left it: the token issued first stays. *)
Theorem login_twice_keeps_the_first_token
    (now : Z) (info : HttpRequest) (email password : string) (st : Store)
    (k : Z) (u : CustomUser) :
  CustomUser_objects st !! k = Some u →
  AccountModels.email u = email →
  (∀ k' u', CustomUser_objects st !! k' = Some u' → AccountModels.email u' = email → k' = k) →
  check_password password (AccountModels.password u) = true →
  ∃ st1 u1,
    LoginMutation_mutate now info email password st = (Return tt, st1) ∧
    CustomUser_objects st1 !! k = Some u1 ∧
    truthy (token u1) = true ∧
    (truthy (token u) = false → token u1 = Some (make_token now (k, u))) ∧
    ∀ now2 info2,
      LoginMutation_mutate now2 info2 email password st1 = (Return tt, st1).
Proof.
  intros Hk He Honly Hpw.
  pose proof (objects_get_found (λ u, AccountModels.email u = email)
                "CustomUser" _ k u Hk He Honly) as Hget.
  set (u1 := if truthy (token u) then u
             else set_token (Some (make_token now (k, u))) u).
  assert (truthy (token u1) = true) as Htr1.
  { unfold u1. destruct (truthy (token u)) eqn:Htr; [done|]. apply issued_token_truthy. }
  assert (AccountModels.email u1 = email ∧
          AccountModels.password u1 = AccountModels.password u) as [He1 Hp1].
  { unfold u1. by destruct (truthy (token u)). }
  exists (logged_in (k, u1) st), u1. split_and!.
  - rewrite (LoginMutation_mutate_found _ _ _ _ _ k u Hget), Hpw.
    unfold u1. by destruct (truthy (token u)).
  - unfold logged_in. cbn. by rewrite lookup_insert_eq.
  - done.
  - intros Hf. unfold u1. by rewrite Hf.
  - intros now2 info2.
    rewrite (LoginMutation_mutate_found _ _ _ _ (logged_in (k, u1) st) k u1).
    + rewrite Hp1, Hpw, Htr1. unfold logged_in. cbn.
      by rewrite insert_insert_eq.
    + apply objects_get_found; unfold logged_in; cbn.
      * by rewrite lookup_insert_eq.
      * done.
      * intros k' u' Hk' He'. destruct (decide (k' = k)) as [->|Hne]; [done|].
        rewrite lookup_insert_ne in Hk' by done. by apply (Honly k' u').
Qed.

End LoginTwice.

Section LogOutLoginOnFixture.
Import Tokens StoreProps AccountViews Fixture.

(** Carol logs out at [noon]; her token is of no use afterwards. *)
Lemma logout_always_clears_the_token_witness :
  LogOutMutation_mutate noon (bearer carol_token) library =
    (Return tt, expired (3, set_token (Some carol_token) carol) library) ∧
  LogOutMutation_mutate (noon + 1) (bearer carol_token)
    (expired (3, set_token (Some carol_token) carol) library) =
    (Raise (GraphQLError "Authorization Token is Invalid"),
     expired (3, set_token (Some carol_token) carol) library).
Proof.
  destruct (logout_always_clears_the_token noon (bearer carol_token) library
              carol_token 3 (set_token (Some carol_token) carol))
    as (_ & _ & _ & _ & Hlater).
  - apply library_tokens_unique.
  - reflexivity.
  - vm_compute. intros Heq. discriminate Heq.
  - vm_compute. reflexivity.
  - reflexivity.
  - split; [vm_compute; reflexivity|apply Hlater].
Defined.

Lemma login_with_unknown_email_witness :
  LoginMutation_mutate noon (bearer "") "nobody@x.com" "p1" registered =
    (Raise (DoesNotExist "CustomUser matching query does not exist."), registered).
Proof.
  apply login_with_unknown_email.
  apply (bool_decide_unpack
           (map_Forall (λ _ u, AccountModels.email u ≠ "nobody@x.com")
                       (CustomUser_objects registered))).
  vm_compute. exact I.
Defined.

(** Alice logs in: her row gets a token, the books are not touched. *)
Lemma login_writes_one_token_at_most_witness :
  LoginMutation_mutate noon (bearer "") "a@x.com" "p1" registered =
    (Return tt, logged_in (1, set_token (Some alice_token) alice) registered) ∧
  Book_objects (logged_in (1, set_token (Some alice_token) alice) registered) =
    Book_objects registered.
Proof.
  assert (LoginMutation_mutate noon (bearer "") "a@x.com" "p1" registered =
            (Return tt, logged_in (1, set_token (Some alice_token) alice) registered))
    as Hrun by (vm_compute; reflexivity).
  split; [exact Hrun|].
  by destruct (login_writes_one_token_at_most _ _ _ _ _ _ _ Hrun) as (_ & _ & Hb & _).
Defined.

Lemma login_twice_keeps_the_first_token_witness :
  ∃ st1 u1,
    LoginMutation_mutate noon (bearer "") "a@x.com" "p1" registered = (Return tt, st1) ∧
    CustomUser_objects st1 !! 1 = Some u1 ∧
    truthy (token u1) = true ∧
    (truthy (token alice) = false → token u1 = Some (make_token noon (1, alice))) ∧
    ∀ now2 info2,
      LoginMutation_mutate now2 info2 "a@x.com" "p1" st1 = (Return tt, st1).
Proof.
  apply (login_twice_keeps_the_first_token noon (bearer "") "a@x.com" "p1" registered
           1 alice).
  - vm_compute. reflexivity.
  - reflexivity.
  - apply (bool_decide_unpack
             (map_Forall (λ k u, AccountModels.email u = "a@x.com" → k = 1)
                         (CustomUser_objects registered))).
    vm_compute. exact I.
  - vm_compute. reflexivity.
Defined.

End LogOutLoginOnFixture.

(** ** account/views.py: signing up *)

Section SignUpOutcomes.
Import Tokens StoreProps AccountViews.
Context `{Framework} `{TokenGenerator}.

Lemma CustomUser_insert_Return (row : CustomUser) (st st' : Store) (obj : Z * CustomUser) :
  ORM.CustomUser_insert row st = (Return obj, st') →
  obj.2 = row ∧
  CustomUser_objects st !! obj.1 = None ∧
  st' = set_CustomUser_objects (<[obj.1 := row]> (CustomUser_objects st)) st ∧
  (∀ k u, CustomUser_objects st !! k = Some u → email u ≠ email row) ∧
  (∀ k u, CustomUser_objects st !! k = Some u → username u ≠ username row).
Proof.
  unfold ORM.CustomUser_insert.
  case_bool_decide as He; [done|]. case_bool_decide as Hu; [done|].
  intros [= <- <-]. cbn. split_and!; try done.
  - apply not_elem_of_dom, is_fresh.
  - intros k u Hk Heq. apply He. by exists k, u.
  - intros k u Hk Heq. apply Hu. by exists k, u.
Qed.

Lemma CustomUser_insert_free (row : CustomUser) (st : Store) :
  (∀ k u, CustomUser_objects st !! k = Some u → email u ≠ email row) →
  (∀ k u, CustomUser_objects st !! k = Some u → username u ≠ username row) →
  ORM.CustomUser_insert row st =
    (Return (fresh (dom (CustomUser_objects st)), row),
     set_CustomUser_objects
       (<[fresh (dom (CustomUser_objects st)) := row]> (CustomUser_objects st)) st).
Proof.
  intros He Hu. unfold ORM.CustomUser_insert.
  rewrite bool_decide_eq_false_2.
  2: { intros (k & u & Hk & Heq). by apply (He k u). }
  rewrite bool_decide_eq_false_2; [done|].
  intros (k & u & Hk & Heq). by apply (Hu k u).
Qed.

Lemma CustomUser_insert_Raise (row : CustomUser) (st st' : Store) e :
  ORM.CustomUser_insert row st = (Raise e, st') →
  st' = st ∧ ∃ k u, CustomUser_objects st !! k = Some u ∧
                    (email u = email row ∨ username u = username row).
Proof.
  unfold ORM.CustomUser_insert.
  case_bool_decide as He.
  { intros [= <- <-]. split; [done|]. destruct He as (k & u & Hk & Heq). eauto. }
  case_bool_decide as Hu; [|done].
  intros [= <- <-]. split; [done|]. destruct Hu as (k & u & Hk & Heq). eauto.
Qed.

(** X10. [SignUpMutation.mutate] succeeds exactly when the two passwords
    are equal and neither the email nor the username is taken; whenever
    it does not succeed it raises a [GraphQLError] and leaves the store
    as it was. The request is not consulted: no token is needed to sign
    up. *)
Theorem signup_succeeds_iff_free
    (info : HttpRequest)
    (email username first_name last_name password confirm_password : string)
    (st : Store) :
  let run := SignUpMutation_mutate info email username first_name last_name
               password confirm_password st in
  ((∃ st', run = (Return tt, st')) ↔
   password = confirm_password ∧
   (∀ k u, CustomUser_objects st !! k = Some u →
           AccountModels.email u ≠ email ∧ AccountModels.username u ≠ username)) ∧
  (∀ e st', run = (Raise e, st') → st' = st ∧ ∃ msg, e = GraphQLError msg) ∧
  (password ≠ confirm_password →
   run = (Raise (GraphQLError "Password does not match"), st)).
Proof.
  cbn zeta. unfold SignUpMutation_mutate.
  case_bool_decide as Hpw; run_resolver.
  2: { split_and!.
       - split; [by intros (? & ?)|by intros (? & ?)].
       - intros e st' [= <- <-]. eauto.
       - done. }
  destruct (ORM.CustomUser_insert (model password email username first_name last_name) st)
    as [[obj|e] st1] eqn:Hins.
  - apply CustomUser_insert_Return in Hins as (_ & _ & _ & He & Hu). split_and!.
    + split; [|by eauto]. intros _. split; [done|]. intros k u Hk.
      split; [apply (He k u Hk)|apply (Hu k u Hk)].
    + done.
    + done.
  - apply CustomUser_insert_Raise in Hins as (-> & k & u & Hk & Htaken). split_and!.
    + split; [by intros (? & ?)|]. intros (_ & Hfree).
      destruct (Hfree k u Hk) as [He Hu]. by destruct Htaken.
    + intros e' st' [= <- <-]. eauto.
    + done.
Qed.

(** X11. What a successful signup writes: one new row under a primary key
    that was unused, holding the email and the username as typed, active,
    with none of the three role flags and no token. The other rows, the
    other tables and the session are as before, so nobody is logged in by
    signing up, and stored tokens stay pairwise different. *)
Theorem signup_adds_one_plain_row
    (info : HttpRequest)
    (email username first_name last_name password confirm_password : string)
    (st st' : Store) :
  SignUpMutation_mutate info email username first_name last_name
    password confirm_password st = (Return tt, st') →
  ∃ pk row,
    CustomUser_objects st !! pk = None ∧
    st' = set_CustomUser_objects (<[pk := row]> (CustomUser_objects st)) st ∧
    AccountModels.email row = email ∧ AccountModels.username row = username ∧
    AccountModels.first_name row = first_name ∧ AccountModels.last_name row = last_name ∧
    is_active row = true ∧
    is_admin row = false ∧ is_patron row = false ∧ is_author row = false ∧
    token row = None ∧
    session st' = session st ∧
    (∀ k, k ≠ pk → CustomUser_objects st' !! k = CustomUser_objects st !! k) ∧
    (tokens_unique st → tokens_unique st').
Proof.
  unfold SignUpMutation_mutate.
  case_bool_decide as Hpw; run_resolver; [|done].
  destruct (ORM.CustomUser_insert (model password email username first_name last_name) st)
    as [[obj|e] st1] eqn:Hins; [|done].
  intros [= <-].
  apply CustomUser_insert_Return in Hins as (_ & Hfree & -> & _ & _).
  exists obj.1, (model password email username first_name last_name).
  split_and!; try done.
  - intros k Hne. cbn. by rewrite lookup_insert_ne.
  - intros Huniq k1 k2 u1 u2 t. cbn.
    destruct (decide (k1 = obj.1)) as [->|Hne1].
    { rewrite lookup_insert_eq. by intros [= <-]. }
    destruct (decide (k2 = obj.1)) as [->|Hne2].
    { rewrite (lookup_insert_eq _ obj.1). by intros _ [= <-]. }
    rewrite !lookup_insert_ne by done. apply Huniq.
Qed.

(** X12. Signing up and then logging in. After a successful signup with
    password [password], a login with the same email and password
    [attempt] succeeds exactly when [check_password attempt password]
    holds, that is when [attempt] verifies against the typed password
    read as a stored hash; otherwise it raises "Invalid credentials" and
    changes nothing. *)
Theorem signup_then_login
    (info : HttpRequest)
    (email username first_name last_name password confirm_password : string)
    (st st1 : Store) :
  SignUpMutation_mutate info email username first_name last_name
    password confirm_password st = (Return tt, st1) →
  ∃ pk row,
    CustomUser_objects st1 !! pk = Some row ∧
    AccountModels.password row = password ∧
    ∀ now info2 attempt,
      LoginMutation_mutate now info2 email attempt st1 =
        if check_password attempt password
        then (Return tt, logged_in (pk, set_token (Some (make_token now (pk, row))) row) st1)
        else (Raise (GraphQLError "Invalid credentials. Please try again."), st1).
Proof.
  unfold SignUpMutation_mutate.
  case_bool_decide as Hpw; run_resolver; [|done].
  destruct (ORM.CustomUser_insert (model password email username first_name last_name) st)
    as [[obj|e] st2] eqn:Hins; [|done].
  intros [= <-].
  apply CustomUser_insert_Return in Hins as (_ & Hfree & -> & He & _).
  exists obj.1, (model password email username first_name last_name).
  split_and!.
  - cbn. by rewrite lookup_insert_eq.
  - done.
  - intros now info2 attempt.
    rewrite (LoginMutation_mutate_found _ _ _ _ _ obj.1
               (model password email username first_name last_name)).
    + cbn. by destruct (check_password attempt password).
    + apply objects_get_found; cbn.
      * by rewrite lookup_insert_eq.
      * done.
      * intros k' u' Hk' He'. destruct (decide (k' = obj.1)) as [->|Hne]; [done|].
        rewrite lookup_insert_ne in Hk' by done. by destruct (He k' u' Hk').
Qed.

End SignUpOutcomes.

(** ** account/models.py: the manager *)

Section ManagerFacts.
Import Tokens StoreProps AccountViews AccountManagers.
Context `{Framework}.

(** X13. [CustomUserManager.create_superuser] refuses an empty email with
    [ValueError] before touching the table. When it returns, the new row
    sits under an unused key, its email is the normalised argument, its
    password column is [make_password] of the argument, each of the three
    role flags is the caller's value where one was passed and [True]
    otherwise, and the remaining columns are the caller's. *)
Theorem create_superuser_defaults
    (email : string) (password : option string)
    (is_admin is_author is_patron : option bool) (kwargs : CustomUser) (st : Store) :
  (email = "" →
   create_superuser email password is_admin is_author is_patron kwargs st =
     (Raise (ValueError "Email must be set"), st)) ∧
  (∀ e st', create_superuser email password is_admin is_author is_patron kwargs st =
              (Raise e, st') → st' = st) ∧
  (∀ pk row st',
     create_superuser email password is_admin is_author is_patron kwargs st =
       (Return (pk, row), st') →
     CustomUser_objects st !! pk = None ∧
     st' = set_CustomUser_objects (<[pk := row]> (CustomUser_objects st)) st ∧
     AccountModels.email row = normalize_email email ∧
     AccountModels.password row = make_password password ∧
     AccountModels.is_admin row = default true is_admin ∧
     AccountModels.is_author row = default true is_author ∧
     AccountModels.is_patron row = default true is_patron ∧
     AccountModels.username row = AccountModels.username kwargs ∧
     AccountModels.is_active row = AccountModels.is_active kwargs ∧
     AccountModels.token row = AccountModels.token kwargs).
Proof.
  unfold create_superuser, create_user. split_and!.
  - intros ->. done.
  - intros e st'. case_bool_decide; [by intros [= <- <-]|].
    by intros (-> & _)%CustomUser_insert_Raise.
  - intros pk row st'. case_bool_decide; [done|].
    intros (Hrow & Hfree & -> & _)%CustomUser_insert_Return. cbn in Hrow, Hfree.
    subst row. by split_and!.
Qed.

End ManagerFacts.

Section SignUpOutcomesOnFixture.
Import Tokens StoreProps AccountViews Fixture.

(** Dave signs up with the password [p4]. *)
Lemma signup_adds_one_plain_row_witness :
  ∃ pk row,
    CustomUser_objects registered !! pk = None ∧
    set_CustomUser_objects
      (<[4 := model "p4" "d@x.com" "dave" "Dave" "D"]> (CustomUser_objects registered))
      registered =
    set_CustomUser_objects (<[pk := row]> (CustomUser_objects registered)) registered ∧
    is_active row = true ∧ is_author row = false ∧ token row = None.
Proof.
  destruct (signup_adds_one_plain_row (bearer "") "d@x.com" "dave" "Dave" "D" "p4" "p4"
              registered
              (set_CustomUser_objects
                 (<[4 := model "p4" "d@x.com" "dave" "Dave" "D"]>
                    (CustomUser_objects registered)) registered))
    as (pk & row & Hfree & Hst & _ & _ & _ & _ & Hact & _ & _ & Hauth & Htok & _).
  - vm_compute. reflexivity.
  - by exists pk, row.
Defined.

(** Dave then logs in by typing a text whose hash is [p4], not [p4]. *)
Lemma signup_then_login_witness :
  ∃ pk row,
    CustomUser_objects
      (set_CustomUser_objects
         (<[4 := model "p4" "d@x.com" "dave" "Dave" "D"]> (CustomUser_objects registered))
         registered) !! pk = Some row ∧
    password row = "p4" ∧
    LoginMutation_mutate noon (bearer "") "d@x.com" "p4"
      (set_CustomUser_objects
         (<[4 := model "p4" "d@x.com" "dave" "Dave" "D"]> (CustomUser_objects registered))
         registered) =
      (Raise (GraphQLError "Invalid credentials. Please try again."),
       set_CustomUser_objects
         (<[4 := model "p4" "d@x.com" "dave" "Dave" "D"]> (CustomUser_objects registered))
         registered).
Proof.
  destruct (signup_then_login (bearer "") "d@x.com" "dave" "Dave" "D" "p4" "p4"
              registered
              (set_CustomUser_objects
                 (<[4 := model "p4" "d@x.com" "dave" "Dave" "D"]>
                    (CustomUser_objects registered)) registered))
    as (pk & row & Hrow & Hpw & Hlogin).
  - vm_compute. reflexivity.
  - exists pk, row. split_and!; [exact Hrow|exact Hpw|].
    rewrite (Hlogin noon (bearer "") "p4"). reflexivity.
Defined.

End SignUpOutcomesOnFixture.

(** ** genre/views.py: edge cases, round trips and the book relation *)

Section GenreFacts.
Import Tokens StoreProps GenreViews Queries Integrity.
Context `{TokenGenerator}.

Lemma set_Genre_objects_id (st : Store) : set_Genre_objects (Genre_objects st) st = st.
Proof. by destruct st. Qed.

Lemma set_genres_id (b : BooksModels.Book) : BooksModels.set_genres (BooksModels.genres b) b = b.
Proof. by destruct b. Qed.

Lemma CreateGenreMutation_mutate_passed now info st user name description genreid :
  verify_header now info st = (Return user, st) →
  CreateGenreMutation_mutate now info name description genreid st =
  match Genre_objects st !! genreid with
  | Some _ =>
      (Raise (GraphQLError "UNIQUE constraint failed: genre_genre.genreid"), st)
  | None =>
      (Return tt,
       set_Genre_objects
         (<[genreid := GenreModels.mkGenre name description]> (Genre_objects st)) st)
  end.
Proof.
  intros Hv. unfold CreateGenreMutation_mutate. run_resolver. rewrite Hv.
  unfold ORM.Genre_objects_create. by destruct (Genre_objects st !! genreid).
Qed.

Lemma EditGenreMutation_mutate_passed now info st user name description genreid :
  verify_header now info st = (Return user, st) →
  EditGenreMutation_mutate now info name description genreid st =
  match Genre_objects st !! genreid with
  | Some genre =>
      let edited :=
        GenreModels.mkGenre (default (GenreModels.name genre) name)
                            (default (GenreModels.description genre) description) in
      (Return (genreid, edited),
       set_Genre_objects (<[genreid := edited]> (Genre_objects st)) st)
  | None => (Raise (GraphQLError "Genre matching query does not exist."), st)
  end.
Proof.
  intros Hv. unfold EditGenreMutation_mutate. run_resolver. rewrite Hv.
  unfold ORM.objects_get_pk. by destruct (Genre_objects st !! genreid).
Qed.

Lemma DeleteGenreMutation_mutate_passed now info st user genreid :
  verify_header now info st = (Return user, st) →
  DeleteGenreMutation_mutate now info genreid st =
  match Genre_objects st !! genreid with
  | Some genre =>
      (Return tt,
       set_Genre_objects (delete genreid (Genre_objects st))
         (set_Book_objects
            ((λ b, BooksModels.set_genres (BooksModels.genres b ∖ {[genreid]}) b)
               <$> Book_objects st) st))
  | None => (Raise (GraphQLError "Genre matching query does not exist."), st)
  end.
Proof.
  intros Hv. unfold DeleteGenreMutation_mutate. run_resolver. rewrite Hv.
  unfold ORM.objects_get_pk. by destruct (Genre_objects st !! genreid).
Qed.

Lemma genre_mutations_gate_raises now info st e st0 :
  verify_header now info st = (Raise e, st0) →
  (∀ name description genreid,
     CreateGenreMutation_mutate now info name description genreid st =
       (Raise (GraphQLError (str e)), st0)) ∧
  (∀ name description genreid,
     EditGenreMutation_mutate now info name description genreid st =
       (Raise (GraphQLError (str e)), st0)) ∧
  (∀ genreid,
     DeleteGenreMutation_mutate now info genreid st =
       (Raise (GraphQLError (str e)), st0)).
Proof.
  intros Hv. split_and!; intros;
    [unfold CreateGenreMutation_mutate|unfold EditGenreMutation_mutate
    |unfold DeleteGenreMutation_mutate]; run_resolver; by rewrite Hv.
Qed.


(** X15. Editing a genre is idempotent, and an edit whose two arguments
    are null is the identity: running [EditGenreMutation.mutate] a second
    time with the same arguments returns the same row and leaves the
    store of the first run, and with both [name] and [description] null
    the first run already leaves the store as it found it. *)
Theorem edit_genre_idempotent
    (now : Z) (info : HttpRequest) (st : Store) (user : Z * CustomUser)
    (genreid : string) (genre : GenreModels.Genre) (name description : option string) :
  verify_header now info st = (Return user, st) →
  Genre_objects st !! genreid = Some genre →
  ∃ edited st1,
    EditGenreMutation_mutate now info name description genreid st =
      (Return (genreid, edited), st1) ∧
    EditGenreMutation_mutate now info name description genreid st1 =
      (Return (genreid, edited), st1) ∧
    (name = None → description = None → edited = genre ∧ st1 = st).
Proof.
  intros Hv Hg.
  set (edited := GenreModels.mkGenre (default (GenreModels.name genre) name)
                   (default (GenreModels.description genre) description)).
  set (st1 := set_Genre_objects (<[genreid := edited]> (Genre_objects st)) st).
  exists edited, st1. split_and!.
  - by rewrite (EditGenreMutation_mutate_passed _ _ _ user), Hg.
  - rewrite (EditGenreMutation_mutate_passed _ _ st1 user)
      by (by apply (verify_header_Return_same_users _ _ st)).
    unfold st1 at 1. cbn. rewrite lookup_insert_eq. cbn.
    replace (GenreModels.mkGenre _ _) with edited
      by (unfold edited; by destruct name, description).
    unfold st1. cbn. by rewrite insert_insert_eq.
  - intros -> ->. unfold st1, edited. cbn.
    assert (GenreModels.mkGenre (GenreModels.name genre) (GenreModels.description genre)
            = genre) as -> by (by destruct genre).
    split; [done|]. rewrite insert_id by done. apply set_Genre_objects_id.
Qed.

(** X16. Creating a genre and deleting it again is a round trip. In a
    store where books refer to existing genres only, a create under an
    unused key followed by a delete of that key, both passing the gate,
    ends in exactly the store it started from. *)
Theorem create_then_delete_genre_restores
    (now : Z) (info : HttpRequest) (st : Store) (user : Z * CustomUser)
    (name description genreid : string) :
  genres_exist st →
  verify_header now info st = (Return user, st) →
  Genre_objects st !! genreid = None →
  ∃ st1,
    CreateGenreMutation_mutate now info name description genreid st = (Return tt, st1) ∧
    Genre_objects st1 !! genreid = Some (GenreModels.mkGenre name description) ∧
    DeleteGenreMutation_mutate now info genreid st1 = (Return tt, st).
Proof.
  intros Hex Hv Hfree.
  set (st1 := set_Genre_objects
                (<[genreid := GenreModels.mkGenre name description]> (Genre_objects st)) st).
  exists st1. split_and!.
  - by rewrite (CreateGenreMutation_mutate_passed _ _ _ user), Hfree.
  - unfold st1. cbn. by rewrite lookup_insert_eq.
  - rewrite (DeleteGenreMutation_mutate_passed _ _ st1 user)
      by (by apply (verify_header_Return_same_users _ _ st)).
    unfold st1 at 1. cbn. rewrite lookup_insert_eq.
    unfold st1. cbn. rewrite delete_insert_eq, delete_id by done.
    assert ((λ b, BooksModels.set_genres (BooksModels.genres b ∖ {[genreid]}) b)
              <$> Book_objects st = Book_objects st) as Hbooks.
    { apply map_eq. intros bookid. rewrite lookup_fmap.
      destruct (Book_objects st !! bookid) as [book|] eqn:Hb; [|done]. cbn. f_equal.
      rewrite difference_disjoint_L; [apply set_genres_id|].
      apply disjoint_singleton_r. intros Hin.
      destruct (Hex bookid book genreid Hb Hin) as [g Hg]. congruence. }
    unfold set_Genre_objects, set_Book_objects. cbn. rewrite Hbooks. by destruct st.
Qed.

(** X17. Books never point at a genre that is gone. If every genre key
    held by a book's relation is a row of the genre table, the same holds
    after each of the three genre mutations, whatever their outcome; and
    after a delete that returns, no book holds the deleted key, while
    every book keeps its other genres, its authors and its attributes. *)
Theorem genre_mutations_keep_genres_exist
    (now : Z) (info : HttpRequest) (st : Store) :
  genres_exist st →
  (∀ name description genreid r st',
     CreateGenreMutation_mutate now info name description genreid st = (r, st') →
     genres_exist st') ∧
  (∀ name description genreid r st',
     EditGenreMutation_mutate now info name description genreid st = (r, st') →
     genres_exist st') ∧
  (∀ genreid r st',
     DeleteGenreMutation_mutate now info genreid st = (r, st') →
     genres_exist st' ∧
     (r = Return tt →
      genre_unused genreid st' ∧
      ∀ bookid, Book_objects st' !! bookid =
                (λ b, BooksModels.set_genres (BooksModels.genres b ∖ {[genreid]}) b)
                  <$> Book_objects st !! bookid)).
Proof.
  intros Hex.
  assert (∀ st', Genre_objects st' = Genre_objects st →
                 Book_objects st' = Book_objects st → genres_exist st') as Hsame.
  { intros st' Hg Hb bookid book genreid. rewrite Hg, Hb. apply Hex. }
  assert (∀ genreid genre,
            genres_exist (set_Genre_objects (<[genreid := genre]> (Genre_objects st)) st))
    as Hins.
  { intros genreid genre bookid book g Hb Hg. cbn in *.
    apply lookup_insert_is_Some'. right. by apply (Hex bookid book). }
  destruct (verify_header now info st) as [[user|e] st0] eqn:Hv.
  2: { destruct (genre_mutations_gate_raises _ _ _ _ _ Hv) as (Hc & He & Hd).
       apply verify_header_frame in Hv as (_ & Hg & Hb).
       split_and!.
       - intros name description genreid r st'. rewrite Hc. intros [= <- <-]. by apply Hsame.
       - intros name description genreid r st'. rewrite He. intros [= <- <-]. by apply Hsame.
       - intros genreid r st'. rewrite Hd. intros [= <- <-]. split; [by apply Hsame|done]. }
  pose proof Hv as (-> & _)%verify_header_Return.
  split_and!.
  - intros name description genreid r st'.
    rewrite (CreateGenreMutation_mutate_passed _ _ _ user) by done.
    destruct (Genre_objects st !! genreid); intros [= <- <-]; [done|apply Hins].
  - intros name description genreid r st'.
    rewrite (EditGenreMutation_mutate_passed _ _ _ user) by done.
    destruct (Genre_objects st !! genreid); intros [= <- <-]; [apply Hins|done].
  - intros genreid r st'.
    rewrite (DeleteGenreMutation_mutate_passed _ _ _ user) by done.
    destruct (Genre_objects st !! genreid); intros [= <- <-]; [|done].
    split_and!.
    + intros bookid book gid. cbn. rewrite lookup_fmap.
      destruct (Book_objects st !! bookid) as [b|] eqn:Hb; [|done]. cbn.
      intros [= <-]. cbn. intros [Hin Hne%not_elem_of_singleton]%elem_of_difference.
      rewrite lookup_delete_ne by done. by apply (Hex bookid b).
    + intros _. split.
      * intros bookid book. cbn. rewrite lookup_fmap.
        destruct (Book_objects st !! bookid) as [b|] eqn:Hb; [|done]. cbn.
        intros [= <-]. cbn. intros [_ Hn]%elem_of_difference.
        by apply Hn, elem_of_singleton.
      * intros bookid. cbn. by rewrite lookup_fmap.
Qed.

(** X18. Reading a genre back. For a request that passes the gate:
    after a create under an unused key, [resolve_single_genre] returns
    the row made of the two arguments; after an edit it returns the row
    the mutation returned; after a delete it raises [DoesNotExist]; and
    in all three cases it answers for every other key as it did before. *)
Theorem genre_read_after_write
    (now : Z) (info : HttpRequest) (st st' : Store) (user : Z * CustomUser)
    (genreid : string) :
  verify_header now info st = (Return user, st) →
  (∀ name description,
     CreateGenreMutation_mutate now info name description genreid st = (Return tt, st') →
     resolve_single_genre genreid st' =
       (Return (genreid, GenreModels.mkGenre name description), st')) ∧
  (∀ name description edited,
     EditGenreMutation_mutate now info name description genreid st = (Return edited, st') →
     resolve_single_genre genreid st' = (Return edited, st')) ∧
  (DeleteGenreMutation_mutate now info genreid st = (Return tt, st') →
   resolve_single_genre genreid st' =
     (Raise (DoesNotExist "Genre matching query does not exist."), st')) ∧
  (∀ other, other ≠ genreid →
     (∃ name description r,
        CreateGenreMutation_mutate now info name description genreid st = (r, st')) ∨
     (∃ name description r,
        EditGenreMutation_mutate now info name description genreid st = (r, st')) ∨
     (∃ r, DeleteGenreMutation_mutate now info genreid st = (r, st')) →
     (resolve_single_genre other st').1 = (resolve_single_genre other st).1).
Proof.
  intros Hv. unfold resolve_single_genre, ORM.query, ORM.objects_get_pk.
  split_and!.
  - intros name description.
    rewrite (CreateGenreMutation_mutate_passed _ _ _ user) by done.
    destruct (Genre_objects st !! genreid); intros [= <-]. cbn.
    by rewrite lookup_insert_eq.
  - intros name description edited.
    rewrite (EditGenreMutation_mutate_passed _ _ _ user) by done.
    destruct (Genre_objects st !! genreid); intros [= <- <-]. cbn.
    by rewrite lookup_insert_eq.
  - rewrite (DeleteGenreMutation_mutate_passed _ _ _ user) by done.
    destruct (Genre_objects st !! genreid); intros [= <-]. cbn.
    by rewrite lookup_delete_eq.
  - intros other Hne Hrun.
    assert (Genre_objects st' !! other = Genre_objects st !! other) as ->; [|done].
    destruct Hrun as [(name & description & r & Hrun)
                     |[(name & description & r & Hrun)|(r & Hrun)]].
    + rewrite (CreateGenreMutation_mutate_passed _ _ _ user) in Hrun by done.
      destruct (Genre_objects st !! genreid); simplify_eq; [done|].
      cbn. by rewrite lookup_insert_ne.
    + rewrite (EditGenreMutation_mutate_passed _ _ _ user) in Hrun by done.
      destruct (Genre_objects st !! genreid); cbv zeta in Hrun; simplify_eq; [|done].
      cbn. by rewrite lookup_insert_ne.
    + rewrite (DeleteGenreMutation_mutate_passed _ _ _ user) in Hrun by done.
      destruct (Genre_objects st !! genreid); simplify_eq; [|done].
      cbn. by rewrite lookup_delete_ne.
Qed.

End GenreFacts.

Section GenreFactsOnFixture.
Import Tokens StoreProps GenreViews Queries Integrity Fixture.

(** The one book of the fixture has the genre [genre-sf], a row of the
    genre table. *)
Lemma library_genres_exist : genres_exist library.
Proof.
  intros bookid book genreid Hb Hg. unfold library in Hb. cbn in Hb.
  apply lookup_singleton_Some in Hb as [_ <-]. cbn in Hg.
  apply elem_of_singleton in Hg as ->. by eexists.
Qed.


Lemma edit_genre_idempotent_witness :
  ∃ edited st1,
    EditGenreMutation_mutate noon (bearer carol_token) (Some "SF") None "genre-sf" library =
      (Return ("genre-sf", edited), st1) ∧
    EditGenreMutation_mutate noon (bearer carol_token) (Some "SF") None "genre-sf" st1 =
      (Return ("genre-sf", edited), st1).
Proof.
  destruct (edit_genre_idempotent noon (bearer carol_token) library
              (3, set_token (Some carol_token) carol) "genre-sf"
              (GenreModels.mkGenre "Science fiction" "Futures") (Some "SF") None)
    as (edited & st1 & Hfirst & Hsecond & _).
  - vm_compute. reflexivity.
  - vm_compute. reflexivity.
  - exists edited, st1. split; [exact Hfirst|exact Hsecond].
Defined.

Lemma create_then_delete_genre_restores_witness :
  ∃ st1,
    CreateGenreMutation_mutate noon (bearer carol_token) "Poetry" "Verse" "genre-poetry"
      library = (Return tt, st1) ∧
    Genre_objects st1 !! "genre-poetry" = Some (GenreModels.mkGenre "Poetry" "Verse") ∧
    DeleteGenreMutation_mutate noon (bearer carol_token) "genre-poetry" st1 =
      (Return tt, library).
Proof.
  apply (create_then_delete_genre_restores noon (bearer carol_token) library
           (3, set_token (Some carol_token) carol)).
  - apply library_genres_exist.
  - vm_compute. reflexivity.
  - vm_compute. reflexivity.
Defined.

(** Deleting the genre of the one book. *)
Lemma genre_mutations_keep_genres_exist_witness :
  genres_exist
    (set_Genre_objects (delete "genre-sf" (Genre_objects library))
       (set_Book_objects
          ((λ b, BooksModels.set_genres (BooksModels.genres b ∖ {["genre-sf"]}) b)
             <$> Book_objects library) library)) ∧
  genre_unused "genre-sf"
    (set_Genre_objects (delete "genre-sf" (Genre_objects library))
       (set_Book_objects
          ((λ b, BooksModels.set_genres (BooksModels.genres b ∖ {["genre-sf"]}) b)
             <$> Book_objects library) library)).
Proof.
  destruct (genre_mutations_keep_genres_exist noon (bearer carol_token) library
              library_genres_exist) as (_ & _ & Hd).
  destruct (Hd "genre-sf" (Return tt)
              (set_Genre_objects (delete "genre-sf" (Genre_objects library))
                 (set_Book_objects
                    ((λ b, BooksModels.set_genres
                             (BooksModels.genres b ∖ {["genre-sf"]}) b)
                       <$> Book_objects library) library)))
    as [Hex Hret].
  - vm_compute. reflexivity.
  - destruct (Hret eq_refl) as [Hunused _]. split; [exact Hex|exact Hunused].
Defined.

Lemma genre_read_after_write_witness :
  resolve_single_genre "genre-crime"
    (set_Genre_objects (delete "genre-crime" (Genre_objects library))
       (set_Book_objects
          ((λ b, BooksModels.set_genres (BooksModels.genres b ∖ {["genre-crime"]}) b)
             <$> Book_objects library) library)) =
  (Raise (DoesNotExist "Genre matching query does not exist."),
   set_Genre_objects (delete "genre-crime" (Genre_objects library))
       (set_Book_objects
          ((λ b, BooksModels.set_genres (BooksModels.genres b ∖ {["genre-crime"]}) b)
             <$> Book_objects library) library)).
Proof.
  destruct (genre_read_after_write noon (bearer carol_token) library
              (set_Genre_objects (delete "genre-crime" (Genre_objects library))
                 (set_Book_objects
                    ((λ b, BooksModels.set_genres
                             (BooksModels.genres b ∖ {["genre-crime"]}) b)
                       <$> Book_objects library) library))
              (3, set_token (Some carol_token) carol) "genre-crime")
    as (_ & _ & Hdel & _).
  - vm_compute. reflexivity.
  - apply Hdel. vm_compute. reflexivity.
Defined.

End GenreFactsOnFixture.

(** ** books/views.py: deleting and listing books *)

Section BookFacts.
Import Tokens StoreProps BooksViews Queries.
Context `{TokenGenerator}.

(** [DeleteBookMutation.mutate] behind the gate, test by test. *)
Lemma DeleteBookMutation_mutate_passed now info st user bookid :
  verify_header now info st = (Return user, st) →
  DeleteBookMutation_mutate now info bookid st =
  match Book_objects st !! bookid with
  | None => (Raise (GraphQLError "No Book matches the given query."), st)
  | Some book =>
      if is_author user.2 then
        match (ORM.authoruser user st).1 with
        | Return authoruser =>
            if bool_decide (authoruser.1 ∈ BooksModels.author book)
            then (Raise (GraphQLError "User not the author of Book"), st)
            else (Return tt, set_Book_objects (delete bookid (Book_objects st)) st)
        | Raise e => (Raise (GraphQLError (str e)), st)
        end
      else (Raise (GraphQLError "User is not an author"), st)
  end.
Proof.
  intros Hv. unfold DeleteBookMutation_mutate. run_resolver. rewrite Hv.
  unfold ORM.get_object_or_404.
  destruct (Book_objects st !! bookid) as [book|] eqn:Hb; [|done]. cbn.
  destruct (is_author user.2); [|done]. cbn.
  unfold ORM.authoruser, ORM.query. cbn.
  destruct (map_to_list _) as [|authoruser [|? ?]]; [done| |done]. cbn.
  rewrite (in_queryset_book_set authoruser st bookid book Hb).
  by case_bool_decide.
Qed.

(** X19. What [DeleteBookMutation.mutate] can do to the store, whatever
    the request: it never writes the genre or author tables, never
    touches a book other than the one named, and changes the book table
    only when it returns, in which case the named book was there and is
    gone. Every failure reaches the caller as a [GraphQLError]. *)
Theorem delete_book_removes_the_named_book_only
    (now : Z) (info : HttpRequest) (bookid : string) (st st' : Store)
    (r : outcome unit) :
  DeleteBookMutation_mutate now info bookid st = (r, st') →
  AuthorUser_objects st' = AuthorUser_objects st ∧
  Genre_objects st' = Genre_objects st ∧
  (∀ other, other ≠ bookid → Book_objects st' !! other = Book_objects st !! other) ∧
  (r = Return tt →
   is_Some (Book_objects st !! bookid) ∧
   st' = set_Book_objects (delete bookid (Book_objects st)) st) ∧
  (r ≠ Return tt →
   Book_objects st' = Book_objects st ∧ ∃ msg, r = Raise (GraphQLError msg)).
Proof.
  destruct (verify_header now info st) as [[user|e] st0] eqn:Hv.
  2: { unfold DeleteBookMutation_mutate. run_resolver. rewrite Hv. intros [= <- <-].
       apply verify_header_frame in Hv as (Ha & Hg & Hb).
       split_and!; try done.
       - intros other _. by rewrite Hb.
       - eauto. }
  pose proof Hv as (-> & _)%verify_header_Return.
  rewrite (DeleteBookMutation_mutate_passed _ _ _ user) by done.
  assert (∀ msg, (Raise (GraphQLError msg), st) = (r, st') →
    AuthorUser_objects st' = AuthorUser_objects st ∧
    Genre_objects st' = Genre_objects st ∧
    (∀ other, other ≠ bookid → Book_objects st' !! other = Book_objects st !! other) ∧
    (r = Return tt →
     is_Some (Book_objects st !! bookid) ∧
     st' = set_Book_objects (delete bookid (Book_objects st)) st) ∧
    (r ≠ Return tt →
     Book_objects st' = Book_objects st ∧ ∃ msg, r = Raise (GraphQLError msg))) as Hfail.
  { intros msg [= <- <-]. split_and!; try done. eauto. }
  destruct (Book_objects st !! bookid) as [book|] eqn:Hb; [|by apply Hfail].
  destruct (is_author user.2); [|by apply Hfail].
  destruct (ORM.authoruser user st).1 as [authoruser|e]; [|by apply Hfail].
  case_bool_decide; [by apply Hfail|].
  intros [= <- <-]. split_and!; try done.
  intros other Hne. cbn. by rewrite lookup_delete_ne.
Qed.

(** X20. After a delete that returned, the book cannot be read and
    cannot be deleted again: [resolve_single_book] raises [DoesNotExist],
    [resolve_all_book] lists the other books only, and a second delete by
    the same request raises "No Book matches the given query." without
    changing the store. *)
Theorem deleted_book_is_gone
    (now : Z) (info : HttpRequest) (bookid : string) (st st' : Store) :
  DeleteBookMutation_mutate now info bookid st = (Return tt, st') →
  resolve_single_book bookid st' =
    (Raise (DoesNotExist "Book matching query does not exist."), st') ∧
  resolve_all_book st' = (Return (delete bookid (Book_objects st)), st') ∧
  DeleteBookMutation_mutate now info bookid st' =
    (Raise (GraphQLError "No Book matches the given query."), st').
Proof.
  intros Hrun.
  destruct (verify_header now info st) as [[user|e] st0] eqn:Hv.
  2: { unfold DeleteBookMutation_mutate in Hrun. revert Hrun. run_resolver.
       by rewrite Hv. }
  pose proof Hv as (-> & _)%verify_header_Return.
  rewrite (DeleteBookMutation_mutate_passed _ _ _ user) in Hrun by done.
  assert (st' = set_Book_objects (delete bookid (Book_objects st)) st) as ->.
  { destruct (Book_objects st !! bookid); [|done].
    destruct (is_author user.2); [|done].
    destruct (ORM.authoruser user st).1; [|done].
    case_bool_decide; by simplify_eq. }
  split_and!.
  - unfold resolve_single_book, ORM.query, ORM.objects_get_pk. cbn.
    by rewrite lookup_delete_eq.
  - done.
  - rewrite (DeleteBookMutation_mutate_passed _ _ _ user)
      by (by apply (verify_header_Return_same_users _ _ st)).
    cbn. by rewrite lookup_delete_eq.
Qed.

Lemma resolve_author_book_passed now info st user :
  verify_header now info st = (Return user, st) →
  resolve_author_book now info st =
  if is_author user.2 then
    match (ORM.authoruser user st).1 with
    | Return authoruser => (Return (ORM.book_set authoruser st), st)
    | Raise e => (Raise e, st)
    end
  else (Raise (GraphQLError "User is not an author"), st).
Proof.
  intros Hv. unfold resolve_author_book. run_resolver. rewrite Hv.
  destruct (is_author user.2); [|done]. cbn.
  unfold ORM.authoruser, ORM.query. cbn.
  by destruct (map_to_list _) as [|authoruser [|? ?]].
Qed.

(** X21. [resolve_author_book] lists the caller's books and nothing
    else. For an identity that passes the gate: without the author flag
    the resolver raises "User is not an author"; with the flag and the
    author record [authoruser], the result holds a book exactly when the
    book table holds it with [authoruser] among its authors. In both
    cases the store is left as it was. *)
Theorem author_book_lists_own_books
    (now : Z) (info : HttpRequest) (st : Store) (user : Z * CustomUser) :
  verify_header now info st = (Return user, st) →
  (is_author user.2 = false →
   resolve_author_book now info st = (Raise (GraphQLError "User is not an author"), st)) ∧
  (is_author user.2 = true →
   ∀ authoruser, ORM.authoruser user st = (Return authoruser, st) →
   ∃ books,
     resolve_author_book now info st = (Return books, st) ∧
     ∀ bookid book,
       books !! bookid = Some book ↔
       Book_objects st !! bookid = Some book ∧ authoruser.1 ∈ BooksModels.author book).
Proof.
  intros Hv. rewrite (resolve_author_book_passed _ _ _ user) by done.
  split; intros ->; [done|]. intros authoruser ->. cbn.
  eexists. split; [done|]. intros bookid book.
  unfold ORM.book_set. by rewrite map_lookup_filter_Some.
Qed.

(** X22. The listing and the delete mutation disagree about ownership.
    Whenever [resolve_author_book] answers a request with a list, the
    same request cannot delete any book on that list ("User not the
    author of Book"), and deletes every other book of the table. *)
Theorem listed_books_cannot_be_deleted
    (now : Z) (info : HttpRequest) (st : Store) (books : gmap string BooksModels.Book) :
  resolve_author_book now info st = (Return books, st) →
  ∀ bookid book,
    Book_objects st !! bookid = Some book →
    DeleteBookMutation_mutate now info bookid st =
      if bool_decide (is_Some (books !! bookid))
      then (Raise (GraphQLError "User not the author of Book"), st)
      else (Return tt, set_Book_objects (delete bookid (Book_objects st)) st).
Proof.
  intros Hlist bookid book Hb.
  destruct (verify_header now info st) as [[user|e] st0] eqn:Hv.
  2: { unfold resolve_author_book in Hlist. revert Hlist. run_resolver. by rewrite Hv. }
  pose proof Hv as (-> & _)%verify_header_Return.
  rewrite (resolve_author_book_passed _ _ _ user) in Hlist by done.
  rewrite (DeleteBookMutation_mutate_passed _ _ _ user), Hb by done.
  destruct (is_author user.2); [|done].
  destruct (ORM.authoruser user st).1 as [authoruser|e]; [|done].
  injection Hlist as <-.
  pose proof (in_queryset_book_set authoruser st bookid book Hb) as Hin.
  unfold ORM.in_queryset in Hin. cbn in Hin. by rewrite Hin.
Qed.

End BookFacts.

(** ** books/models.py: [edit_book] as a function *)

Section EditBookFacts.
Import BooksModels BooksViews.

(** X23. [edit_book] is idempotent, and the identity on the empty
    mapping: applying the same keywords a second time changes nothing
    more, and a call without keywords leaves every attribute and both
    relations as they were. *)
Theorem edit_book_idempotent (self : Book) (kwargs : gmap string value) :
  edit_book (edit_book self kwargs) kwargs = edit_book self kwargs ∧
  edit_book self ∅ = self.
Proof.
  split.
  - unfold edit_book. cbn.
    by repeat match goal with |- context [kwargs_has ?k kwargs] =>
                destruct (kwargs_has k kwargs) end.
  - by destruct self.
Qed.

(** X24. What the mapping of the edit mutation does to a book. The
    dictionary [all_query] always holds all eight keys, so [edit_book]
    overwrites all eight attributes: seven take the argument as it is, a
    null argument erasing the stored value, and the title becomes [None]
    whatever was passed; the authors and genres stay. *)
Theorem edit_book_all_query_overwrites
    (self : Book)
    (title isbn description noofreviews avaliablecopies rating publishyear
     bookpages : value) :
  edit_book self
    (all_query title isbn description noofreviews avaliablecopies rating
               publishyear bookpages) =
  {| BooksModels.title := PyNone; BooksModels.isbn := isbn;
     BooksModels.description := description;
     BooksModels.author := BooksModels.author self;
     BooksModels.genres := BooksModels.genres self;
     BooksModels.rating := rating; BooksModels.publishyear := publishyear;
     BooksModels.avaliablecopies := avaliablecopies;
     BooksModels.noofreviews := noofreviews;
     BooksModels.bookpages := bookpages |}.
Proof. by vm_compute. Qed.

End EditBookFacts.

Section BookFactsOnFixture.
Import Tokens StoreProps BooksViews Queries Fixture.

(** Bob, who did not write the book, deletes it. *)
Lemma bob_deletes_dune :
  DeleteBookMutation_mutate noon (bearer bob_token) "book-dune" library =
    (Return tt, set_Book_objects (delete "book-dune" (Book_objects library)) library).
Proof. vm_compute. reflexivity. Qed.

Lemma delete_book_removes_the_named_book_only_witness :
  Genre_objects (set_Book_objects (delete "book-dune" (Book_objects library)) library) =
    Genre_objects library ∧
  is_Some (Book_objects library !! "book-dune").
Proof.
  destruct (delete_book_removes_the_named_book_only _ _ _ _ _ _ bob_deletes_dune)
    as (_ & Hg & _ & Hr & _).
  split; [exact Hg|]. by destruct Hr.
Defined.

Lemma deleted_book_is_gone_witness :
  resolve_single_book "book-dune"
    (set_Book_objects (delete "book-dune" (Book_objects library)) library) =
    (Raise (DoesNotExist "Book matching query does not exist."),
     set_Book_objects (delete "book-dune" (Book_objects library)) library) ∧
  DeleteBookMutation_mutate noon (bearer bob_token) "book-dune"
    (set_Book_objects (delete "book-dune" (Book_objects library)) library) =
    (Raise (GraphQLError "No Book matches the given query."),
     set_Book_objects (delete "book-dune" (Book_objects library)) library).
Proof.
  destruct (deleted_book_is_gone _ _ _ _ _ bob_deletes_dune) as (Hread & _ & Hagain).
  split; [exact Hread|exact Hagain].
Defined.

(** Alice's list is the one book; Carol is not an author. *)
Lemma author_book_lists_own_books_witness :
  (∃ books,
     resolve_author_book noon (bearer alice_token) library = (Return books, library) ∧
     ∀ bookid book,
       books !! bookid = Some book ↔
       Book_objects library !! bookid = Some book ∧
       "author-alice" ∈ BooksModels.author book).
Proof.
  destruct (author_book_lists_own_books noon (bearer alice_token) library
              (1, set_token (Some alice_token) alice)) as (_ & Hauthor).
  - vm_compute. reflexivity.
  - apply (Hauthor eq_refl ("author-alice", mkAuthorUser 1 "1970-01-01" "NG")).
    vm_compute. reflexivity.
Defined.

Lemma listed_books_cannot_be_deleted_witness :
  resolve_author_book noon (bearer alice_token) library =
    (Return {[ "book-dune" := dune ]}, library) ∧
  DeleteBookMutation_mutate noon (bearer alice_token) "book-dune" library =
    (Raise (GraphQLError "User not the author of Book"), library).
Proof.
  assert (resolve_author_book noon (bearer alice_token) library =
            (Return {[ "book-dune" := dune ]}, library)) as Hlist
    by (vm_compute; reflexivity).
  assert (Book_objects library !! "book-dune" = Some dune) as Hbook
    by (vm_compute; reflexivity).
  split; [exact Hlist|].
  rewrite (listed_books_cannot_be_deleted _ _ _ _ Hlist _ _ Hbook).
  rewrite bool_decide_eq_true_2; [reflexivity|].
  exists dune. vm_compute. reflexivity.
Defined.


End BookFactsOnFixture.
